(** * GroundTruthStudy: the study state manager and its aggregation pipeline

    A shallow embedding of [spikecomparison/groundtruthstudy.py].  The
    Python object [self] and the study folder on disk are threaded through
    every method as an explicit heap; an exception leaves the heap as the
    statements before it made it, as in Python. *)

From Stdlib Require Import ZArith.
From Stdlib Require OrderedTypeEx.
From stdpp Require Import base option list strings gmap fin_maps.

Local Open Scope string_scope.
Local Open Scope Z_scope.
Local Open Scope list_scope.

(** ** Exceptions and results *)

Inductive exn : Type :=
  | Exception (msg : string)        (* [raise Exception(msg)] *)
  | AssertionError (msg : string)   (* a failed [assert cond, msg] *)
  | ValueError (msg : string)       (* [list.index] miss, [pd.concat([])], length mismatch *)
  | KeyError (key : string * string) (* [dict[key]] miss *)
  | IndexError
  | TypeError (msg : string)
  | FileNotFoundError (path : string)
  | ExternalError (msg : string).   (* raised inside a collaborator *)

Inductive result (A : Type) : Type :=
  | Ok (a : A)
  | Raise (e : exn).
Arguments Ok {A} a.
Arguments Raise {A} e.

Definition is_ok {A} (r : result A) : bool :=
  match r with Ok _ => true | Raise _ => false end.

(** The spec's error taxonomy, read off the exceptions the code raises. *)
Definition usage_error (e : exn) : Prop :=
  match e with Exception _ | AssertionError _ => True | _ => False end.

Definition lookup_error (e : exn) : Prop :=
  match e with ValueError _ | KeyError _ | IndexError => True | _ => False end.

(** ** Plain data *)

(** A sorting as [NpzSortingExtractor] holds it: unit ids and labelled spikes. *)
Record Sorting : Type := {
  get_unit_ids : list Z;
  spikes : list (Z * Z)   (* sample index, unit label *)
}.

Inductive Mode : Type := keep | overwrite.

(** Two outputs for the example studies. *)
Definition two_units : Sorting :=
  {| get_unit_ids := [1; 2]; spikes := [(10, 1); (25, 2)] |}.

Definition three_units : Sorting :=
  {| get_unit_ids := [1; 2; 3]; spikes := [(10, 1); (25, 2); (31, 3)] |}.

(** [np.unique(xs).tolist()] on strings: sorted, without repetition. *)
Fixpoint unique_insert (x : string) (l : list string) : list string :=
  match l with
  | [] => [x]
  | y :: l' =>
      match String.compare x y with
      | Lt => x :: y :: l'
      | Eq => y :: l'
      | Gt => y :: unique_insert x l'
      end
  end.

Definition np_unique (l : list string) : list string :=
  foldr unique_insert [] l.

(** [l.index(x)]: position of the first element equal to [x]. *)
Fixpoint list_index (l : list string) (x : string) : option nat :=
  match l with
  | [] => None
  | y :: l' => if decide (y = x) then Some 0%nat else S <$> list_index l' x
  end.

Section Study.

#[local] Set Default Proof Using "Type".

(** Carriers the class only passes around: recordings, scoring options,
    per-unit performance rows, thresholds and measured values, file texts,
    sorter parameters. *)
Context {Recording Kwargs Perf Score Measure FileText Params EngineKargs : Type}.

(** Modelled from the spec: [groundtruthcomparison.py], which defines
    [compare_sorter_to_ground_truth] and the comparison object it returns, is
    absent from the sources.  The spec treats scoring as "a pure function
    with a known result shape", so a comparison is represented by the
    arguments it was scored with, and the counts and performance table it
    answers are collaborators below. *)
Record Comparison : Type := {
  sorting1 : Sorting;        (* ground truth *)
  sorting2 : Sorting;        (* tested sorting *)
  comp_exhaustive_gt : bool;
  comp_kwargs : Kwargs
}.

Definition compare_sorter_to_ground_truth
    (gt tested : Sorting) (exhaustive : bool) (kw : Kwargs) : Comparison :=
  {| sorting1 := gt; sorting2 := tested;
     comp_exhaustive_gt := exhaustive; comp_kwargs := kw |}.

Variable count_well_detected_units : Comparison → option Score → Z.
Variable count_redundant_units : Comparison → option Score → Z.
Variable count_overmerged_units : Comparison → option Score → Z.
Variable count_false_positive_units : Comparison → option Score → Z.
Variable count_bad_units : Comparison → Z.
(** [comp.get_performance(method='by_unit', output='pandas')]: one row per
    ground-truth unit id. *)
Variable get_performance : Comparison → list (Z * Perf).

(** ** The study folder *)

(** Modelled from the spec: [studytools.py] ([get_rec_names],
    [iter_computed_names], [iter_computed_sorting], [collect_run_times],
    [get_one_recording]) is absent from the sources.  The folder is
    represented by what those readers return on it, following the
    persisted layout of the spec: the case names, one ground-truth archive
    per case, the recordings, the computed outputs in the order the
    directory lists them, the run-time records, the metrics files and the
    exported tables. *)
Record Folder : Type := {
  names : list string;
  ground_truth_dir : gmap string Sorting;         (* ground_truth/<file> *)
  recordings : gmap string Recording;
  sortings_dir : list (string * string * Sorting); (* listing order *)
  run_times : list (string * string * Measure);
  metrics_dir : option (gmap string FileText);    (* None: no such folder *)
  tables_dir : option (gmap string FileText)
}.

(** Modelled from the spec: [studytools.get_rec_names] is absent; it
    answers the known case names. *)
Definition get_rec_names (f : Folder) : list string := names f.

(** Modelled from the spec: [studytools.iter_computed_sorting] is absent;
    it yields (case, engine, output) for every computed output found in the
    folder, in the order the directory lists them. *)
Definition iter_computed_sorting (f : Folder) : list (string * string * Sorting) :=
  sortings_dir f.

(** Modelled from the spec: [studytools.iter_computed_names] is absent; it
    yields the (case, engine) pair of every computed output, over the same
    listing. *)
Definition iter_computed_names (f : Folder) : list (string * string) :=
  fst <$> sortings_dir f.

(** Modelled from the spec: [studytools.collect_run_times] is absent; it
    answers the recorded duration of every pair. *)
Definition collect_run_times (f : Folder) : list (string * string * Measure) :=
  run_times f.

(** Modelled from the spec: [studytools.get_one_recording] is absent; it
    reconstructs the recording of a case from the folder of that case. *)
Definition get_one_recording (f : Folder) (rec_name : string) : result Recording :=
  match recordings f !! rec_name with
  | Some r => Ok r
  | None => Raise (FileNotFoundError rec_name)
  end.

(** [se.NpzSortingExtractor(study_folder / 'ground_truth' / file)], of the
    spikeextractors library: it loads the archive when it is constructed. *)
Definition NpzSortingExtractor (f : Folder) (file : string) : result Sorting :=
  match ground_truth_dir f !! file with
  | Some s => Ok s
  | None => Raise (FileNotFoundError file)
  end.

(** ** The object *)

(** [__init__] binds the three lists to [None] and calls [scan_folder]
    before it returns, so a constructed object always holds lists. *)
Record GroundTruthStudy : Type := {
  _is_scanned : bool;
  computed_names : list (string * string);
  rec_names : list string;
  sorter_names : list string;
  comparisons : option (gmap (string * string) Comparison);
  exhaustive_gt : option bool
}.

(** The heap: the contents of [self.study_folder], the object, and the
    current binding of [st.validation.compute_snrs] (a module attribute,
    hence replaceable). *)
Record Heap : Type := {
  disk : Folder;
  self : GroundTruthStudy;
  compute_snrs : Sorting → Recording → result (list Measure)
}.

Definition M (A : Type) : Type := Heap → Heap * result A.

Definition ret {A} (a : A) : M A := λ h, (h, Ok a).
Definition raise {A} (e : exn) : M A := λ h, (h, Raise e).
Definition bind {A B} (m : M A) (k : A → M B) : M B :=
  λ h, match m h with
       | (h', Ok a) => k a h'
       | (h', Raise e) => (h', Raise e)
       end.
Definition lift {A} (r : result A) : M A := λ h, (h, r).
Definition get_heap : M Heap := λ h, (h, Ok h).
Definition put_self (s : GroundTruthStudy) : M unit :=
  λ h, ({| disk := disk h; self := s; compute_snrs := compute_snrs h |}, Ok tt).
Definition put_disk (f : Folder) : M unit :=
  λ h, ({| disk := f; self := self h; compute_snrs := compute_snrs h |}, Ok tt).

Notation "'let*' x ':=' m 'in' k" := (bind m (λ x, k))
  (at level 10, x pattern, m at level 100, k at level 200).

(** [for x in xs: body(x)] *)
Fixpoint for_each {A} (xs : list A) (body : A → M unit) : M unit :=
  match xs with
  | [] => ret tt
  | x :: xs' => let* _ := body x in for_each xs' body
  end.

(** [for x in xs: acc = body(acc, x)] for a loop that carries a local. *)
Fixpoint for_fold {A B} (xs : list A) (acc : B) (body : B → A → M B) : M B :=
  match xs with
  | [] => ret acc
  | x :: xs' => let* acc' := body acc x in for_fold xs' acc' body
  end.

Definition scan_folder : M unit :=
  let* h := get_heap in
  put_self {| rec_names := get_rec_names (disk h);
              computed_names := iter_computed_names (disk h);
              sorter_names := np_unique (snd <$> iter_computed_names (disk h));
              _is_scanned := true;
              comparisons := comparisons (self h);
              exhaustive_gt := exhaustive_gt (self h) |}.

(** [GroundTruthStudy(study_folder)] *)
Definition __init__ (f : Folder)
    (snr : Sorting → Recording → result (list Measure)) : Heap :=
  let h0 := {| disk := f;
               self := {| _is_scanned := false; computed_names := [];
                          rec_names := []; sorter_names := [];
                          comparisons := None; exhaustive_gt := None |};
               compute_snrs := snr |} in
  let h1 := fst (scan_folder h0) in
  {| disk := disk h1;
     self := {| _is_scanned := _is_scanned (self h1);
                computed_names := computed_names (self h1);
                rec_names := rec_names (self h1);
                sorter_names := sorter_names (self h1);
                comparisons := None; exhaustive_gt := None |};
     compute_snrs := compute_snrs h1 |}.

(** [l[i]] *)
Definition list_get (l : list string) (i : nat) : result string :=
  match l !! i with
  | Some x => Ok x
  | None => Raise IndexError
  end.

(** The [if]/[elif]/[else] of [_check_rec_name], which reads nothing but
    [self.rec_names] and the argument. *)
Definition select_rec_name (rec_names : list string)
    (rec_name : option string) : result string :=
  if bool_decide (1 < length rec_names)%nat && bool_decide (rec_name = None) then
    Raise (Exception "Pass 'rec_name' parameter to select which recording to use.")
  else if bool_decide (length rec_names = 1%nat) then
    list_get rec_names 0
  else
    (* rec_names[rec_names.index(rec_name)]; None equals no string *)
    match rec_name ≫= list_index rec_names with
    | Some i => list_get rec_names i
    | None => Raise (ValueError "is not in list")
    end.

Definition _check_rec_name (rec_name : option string) : M string :=
  let* h := get_heap in
  let* _ := (if negb (_is_scanned (self h)) then scan_folder else ret tt) in
  let* h := get_heap in
  lift (select_rec_name (rec_names (self h)) rec_name).

Definition get_ground_truth (rec_name : option string) : M Sorting :=
  let* rec_name := _check_rec_name rec_name in
  let* h := get_heap in
  lift (NpzSortingExtractor (disk h) (rec_name +:+ ".npz")).

Definition get_recording (rec_name : option string) : M Recording :=
  let* rec_name := _check_rec_name rec_name in
  let* h := get_heap in
  lift (get_one_recording (disk h) rec_name).

Definition get_sorting (sort_name : string) (rec_name : option string)
    : M (option Sorting) :=
  let* rec_name := _check_rec_name rec_name in
  let* h := get_heap in
  if bool_decide (sort_name ∈ sorter_names (self h)) then
    for_fold (iter_computed_sorting (disk h)) None
      (λ selected_sorting '(r_name, sorter_name, sorting),
         ret (if bool_decide (sort_name = sorter_name)
                 && bool_decide (r_name = rec_name)
              then Some sorting else selected_sorting))
  else ret None.

(** *** Dispatching runs *)

(** [studytools.run_study_sorters(study_folder, sorter_list, sorter_params=,
    engine=, engine_kargs=, verbose=)], absent from the sources and taken as
    a parameter.  The [option Mode] argument is its [mode] keyword: [None]
    stands for a call that does not pass it, which leaves the choice to the
    default of [run_study_sorters] itself. *)
Variable run_study_sorters :
  Folder → list string → Params → option Mode → string → EngineKargs → bool →
  Folder * result unit.
(** [studytools.copy_sortings_to_npz(study_folder)], likewise. *)
Variable copy_sortings_to_npz : Folder → Folder.

Definition run_sorters (sorter_list : list string) (sorter_params : Params)
    (mode : Mode) (engine : string) (engine_kargs : EngineKargs)
    (verbose : bool) : M unit :=
  let* h := get_heap in
  let '(f, r) := run_study_sorters (disk h) sorter_list sorter_params None
                   engine engine_kargs verbose in
  let* _ := put_disk f in
  lift r.

Definition copy_sortings : M unit :=
  let* h := get_heap in
  let* _ := put_disk (copy_sortings_to_npz (disk h)) in
  scan_folder.

(** *** Comparisons *)

Definition set_comparisons (s : GroundTruthStudy)
    (c : option (gmap (string * string) Comparison)) : GroundTruthStudy :=
  {| _is_scanned := _is_scanned s; computed_names := computed_names s;
     rec_names := rec_names s; sorter_names := sorter_names s;
     comparisons := c; exhaustive_gt := exhaustive_gt s |}.

Definition set_exhaustive_gt (s : GroundTruthStudy) (e : option bool)
    : GroundTruthStudy :=
  {| _is_scanned := _is_scanned s; computed_names := computed_names s;
     rec_names := rec_names s; sorter_names := sorter_names s;
     comparisons := comparisons s; exhaustive_gt := e |}.

(** [self.comparisons[key] = sc] *)
Definition comparisons_setitem (key : string * string) (sc : Comparison)
    : M unit :=
  let* h := get_heap in
  match comparisons (self h) with
  | Some d => put_self (set_comparisons (self h) (Some (<[key := sc]> d)))
  | None => raise (TypeError "'NoneType' object does not support item assignment")
  end.

(** [self.comparisons[key]] *)
Definition comparisons_getitem (key : string * string) : M Comparison :=
  let* h := get_heap in
  match comparisons (self h) with
  | Some d => match d !! key with
              | Some c => ret c
              | None => raise (KeyError key)
              end
  | None => raise (TypeError "'NoneType' object is not subscriptable")
  end.

Definition run_comparisons (exhaustive_gt : bool) (kwargs : Kwargs) : M unit :=
  let* h := get_heap in
  let* _ := put_self (set_comparisons (self h) (Some ∅)) in
  let* h := get_heap in
  let* _ := for_each (iter_computed_sorting (disk h))
    (λ '(rec_name, sorter_name, sorting),
       let* gt_sorting := get_ground_truth (Some rec_name) in
       let sc := compare_sorter_to_ground_truth gt_sorting sorting
                   exhaustive_gt kwargs in
       comparisons_setitem (rec_name, sorter_name) sc) in
  let* h := get_heap in
  put_self (set_exhaustive_gt (self h) (Some exhaustive_gt)).

(** *** Tables *)

(** The frame [aggregate_count_units] builds: a row index of (case, engine)
    keys, named columns, and the cells that hold a value; a cell without
    one is [None]/NaN. *)
Record DataFrame : Type := {
  df_index : list (string * string);
  df_columns : list string;
  df_data : gmap (string * string * string) Z
}.

(** [pd.DataFrame(index=index, columns=columns)] *)
Definition DataFrame_new (index : list (string * string))
    (columns : list string) : DataFrame :=
  {| df_index := index; df_columns := columns; df_data := ∅ |}.

(** [df[c] = None]: a new column is appended, an old one is blanked. *)
Definition setitem_None (df : DataFrame) (c : string) : DataFrame :=
  {| df_index := df_index df;
     df_columns := if bool_decide (c ∈ df_columns df) then df_columns df
                   else df_columns df ++ [c];
     df_data := filter (λ kv, kv.1.2 ≠ c) (df_data df) |}.

(** [df.loc[key, c] = v]: every row carrying [key] gets the value; pandas
    enlarges the frame by a row (or a column) for a label it does not have. *)
Definition loc_setitem (df : DataFrame) (key : string * string) (c : string)
    (v : Z) : DataFrame :=
  {| df_index := if bool_decide (key ∈ df_index df) then df_index df
                 else df_index df ++ [key];
     df_columns := if bool_decide (c ∈ df_columns df) then df_columns df
                   else df_columns df ++ [c];
     df_data := <[(key, c) := v]> (df_data df) |}.

(** The rows of a frame, in index order, cell by cell in column order. *)
Definition df_rows (df : DataFrame) : list (string * string * list (option Z)) :=
  (λ key, (key, (λ c, df_data df !! (key, c)) <$> df_columns df)) <$> df_index df.

(** Python truthiness of [self.exhaustive_gt]. *)
Definition truthy (b : option bool) : bool := default false b.

Definition aggregate_run_times : M (list (string * string * Measure)) :=
  let* h := get_heap in
  ret (collect_run_times (disk h)).

Definition aggregate_performance_by_units
    : M (list (string * string * Z * Perf)) :=
  let* h := get_heap in
  if bool_decide (comparisons (self h) = None) then
    raise (AssertionError "run_comparisons first")
  else
    let* perf_by_units :=
      for_fold (iter_computed_sorting (disk h)) []
        (λ perf_by_units '(rec_name, sorter_name, sorting),
           let* comp := comparisons_getitem (rec_name, sorter_name) in
           let perf := get_performance comp in
           let perf := (λ '(gt_unit_id, p),
                          (rec_name, sorter_name, gt_unit_id, p)) <$> perf in
           ret (perf_by_units ++ [perf])) in
    (* pd.concat of no frame at all raises *)
    if bool_decide (perf_by_units = []) then
      raise (ValueError "No objects to concatenate")
    else ret (concat perf_by_units).

Definition aggregate_count_units
    (well_detected_score redundant_score overmerged_score : option Score)
    : M DataFrame :=
  let* h := get_heap in
  if bool_decide (comparisons (self h) = None) then
    raise (AssertionError "run_comparisons first")
  else
    let index := computed_names (self h) in
    let count_units :=
      DataFrame_new index ["num_gt"; "num_sorter"; "num_well_detected";
                           "num_redundant"; "num_overmerged"] in
    let count_units :=
      if truthy (exhaustive_gt (self h)) then
        setitem_None (setitem_None count_units "num_false_positive") "num_bad"
      else count_units in
    for_fold (iter_computed_sorting (disk h)) count_units
      (λ count_units '(rec_name, sorter_name, sorting),
         let* gt_sorting := get_ground_truth (Some rec_name) in
         let* comp := comparisons_getitem (rec_name, sorter_name) in
         let key := (rec_name, sorter_name) in
         let count_units := loc_setitem count_units key "num_gt"
           (Z.of_nat (length (get_unit_ids gt_sorting))) in
         let count_units := loc_setitem count_units key "num_sorter"
           (Z.of_nat (length (get_unit_ids sorting))) in
         let count_units := loc_setitem count_units key "num_well_detected"
           (count_well_detected_units comp well_detected_score) in
         let count_units := loc_setitem count_units key "num_redundant"
           (count_redundant_units comp redundant_score) in
         let count_units := loc_setitem count_units key "num_overmerged"
           (count_overmerged_units comp overmerged_score) in
         let* h := get_heap in
         if truthy (exhaustive_gt (self h)) then
           let count_units := loc_setitem count_units key "num_false_positive"
             (count_false_positive_units comp redundant_score) in
           let count_units := loc_setitem count_units key "num_bad"
             (count_bad_units comp) in
           ret count_units
         else ret count_units).

(** The dict [aggregate_dataframes] returns, in insertion order. *)
Record Dataframes : Type := {
  df_run_times : list (string * string * Measure);
  df_perf_by_units : list (string * string * Z * Perf);
  df_count_units : DataFrame
}.

(** [df.to_csv(path, sep='\t', index=False)] for each kind of table. *)
Variable run_times_to_csv : list (string * string * Measure) → FileText.
Variable perf_to_csv : list (string * string * Z * Perf) → FileText.
Variable count_to_csv : DataFrame → FileText.

Definition set_tables_dir (f : Folder) (t : option (gmap string FileText))
    : Folder :=
  {| names := names f; ground_truth_dir := ground_truth_dir f;
     recordings := recordings f; sortings_dir := sortings_dir f;
     run_times := run_times f; metrics_dir := metrics_dir f;
     tables_dir := t |}.

Definition set_metrics_dir (f : Folder) (m : option (gmap string FileText))
    : Folder :=
  {| names := names f; ground_truth_dir := ground_truth_dir f;
     recordings := recordings f; sortings_dir := sortings_dir f;
     run_times := run_times f; metrics_dir := m;
     tables_dir := tables_dir f |}.

(** [if not os.path.exists(d): os.makedirs(d)] *)
Definition makedirs_if_missing (d : option (gmap string FileText))
    : option (gmap string FileText) :=
  match d with
  | Some files => Some files
  | None => Some ∅
  end.

(** Writing [name] in a directory that exists. *)
Definition write_file (d : option (gmap string FileText)) (name : string)
    (text : FileText) : result (option (gmap string FileText)) :=
  match d with
  | Some files => Ok (Some (<[name := text]> files))
  | None => Raise (FileNotFoundError name)
  end.

Definition write_table (name : string) (text : FileText) : M unit :=
  let* h := get_heap in
  let* d := lift (write_file (tables_dir (disk h)) (name +:+ ".csv") text) in
  put_disk (set_tables_dir (disk h) d).

Definition aggregate_dataframes (copy_into_folder : bool)
    (well_detected_score redundant_score overmerged_score : option Score)
    : M Dataframes :=
  let* run_times := aggregate_run_times in
  let* perfs := aggregate_performance_by_units in
  let* count_units := aggregate_count_units well_detected_score
                        redundant_score overmerged_score in
  let dataframes := {| df_run_times := run_times;
                       df_perf_by_units := perfs;
                       df_count_units := count_units |} in
  let* _ :=
    if copy_into_folder then
      let* h := get_heap in
      let* _ := put_disk (set_tables_dir (disk h)
                            (makedirs_if_missing (tables_dir (disk h)))) in
      let* _ := write_table "run_times" (run_times_to_csv run_times) in
      let* _ := write_table "perf_by_units" (perf_to_csv perfs) in
      write_table "count_units" (count_to_csv count_units)
    else ret tt in
  ret dataframes.

(** *** Metrics *)

(** [snr.reset_index().to_csv(filename, sep='\t', index=False)] and
    [pd.read_csv(filename, sep='\t', index_col=None).set_index('gt_unit_id')],
    on a table of (ground-truth unit id, SNR) rows. *)
Variable snr_to_csv : list (Z * Measure) → FileText.
Variable snr_read_csv : FileText → result (list (Z * Measure)).

Definition _compute_snr (rec_name : string) : M (list (Z * Measure)) :=
  let* rec := get_recording (Some rec_name) in
  let* gt_sorting := get_ground_truth (Some rec_name) in
  let* h := get_heap in
  let* snr_list := lift (compute_snrs h gt_sorting rec) in
  (* snr.loc[:, 'snr'] = snr_list needs one value per index entry *)
  if bool_decide (length snr_list = length (get_unit_ids gt_sorting)) then
    ret (zip (get_unit_ids gt_sorting) snr_list)
  else raise (ValueError "Length of values does not match length of index").

Definition get_units_snr (rec_name : option string) : M (list (Z * Measure)) :=
  let* rec_name := _check_rec_name rec_name in
  let* h := get_heap in
  let* _ := put_disk (set_metrics_dir (disk h)
                        (makedirs_if_missing (metrics_dir (disk h)))) in
  let filename := "SNR " +:+ rec_name +:+ ".txt" in
  let* h := get_heap in
  match metrics_dir (disk h) ≫= (.!! filename) with
  | Some text => lift (snr_read_csv text)
  | None =>
      let* snr := _compute_snr rec_name in
      let* h := get_heap in
      let* d := lift (write_file (metrics_dir (disk h)) filename
                        (snr_to_csv snr)) in
      let* _ := put_disk (set_metrics_dir (disk h) d) in
      ret snr
  end.

(** ** Reading aids for the statements below *)

(** The heap a method continues in after the lazy scan of
    [_check_rec_name]. *)
Definition after_lazy_scan (h : Heap) : Heap :=
  if _is_scanned (self h) then h else (scan_folder h).1.

(** The case names the study knows when a method resolves a name. *)
Definition known_cases (h : Heap) : list string :=
  rec_names (self (after_lazy_scan h)).

(** What [get_ground_truth] answers on a scanned study, as a function of
    the case names and the folder. *)
Definition ground_truth_of (f : Folder) (names : list string)
    (rec_name : option string) : result Sorting :=
  match select_rec_name names rec_name with
  | Ok n => NpzSortingExtractor f (n +:+ ".npz")
  | Raise e => Raise e
  end.

(** Every computed output names a case whose ground truth loads. *)
Definition ground_truths_load (f : Folder) (names : list string) : bool :=
  forallb (λ x, is_ok (ground_truth_of f names (Some x.1.1)))
          (iter_computed_sorting f).

(** A frame is left as it was. *)
Definition preserves {A} (m : M A) (h : Heap) : Prop := (m h).1 = h.

(** Everything in the folder but the exported tables. *)
Definition outside_tables (f : Folder) : Folder := set_tables_dir f None.

(** ** Order of the engine names *)

(** Strictly increasing in the order [np.unique] sorts by. *)
Fixpoint increasing (l : list string) : Prop :=
  match l with
  | [] => True
  | x :: l' => Forall (λ y, String.compare x y = Lt) l' ∧ increasing l'
  end.

(** ** The comparison map *)

(** The map the spec describes for [run_comparisons]: every discovered
    output, in listing order, scored against the ground truth of its case
    and stored under its (case, engine) pair. *)
Definition score_entry (f : Folder) (names : list string) (e : bool)
    (kw : Kwargs) (d : gmap (string * string) Comparison)
    (x : string * string * Sorting) : gmap (string * string) Comparison :=
  match ground_truth_of f names (Some x.1.1) with
  | Ok gt => <[x.1 := compare_sorter_to_ground_truth gt x.2 e kw]> d
  | Raise _ => d
  end.

Definition comparison_map (f : Folder) (names : list string) (e : bool)
    (kw : Kwargs) : gmap (string * string) Comparison :=
  foldl (score_entry f names e kw) ∅ (iter_computed_sorting f).

Definition with_self (h : Heap) (s : GroundTruthStudy) : Heap :=
  {| disk := disk h; self := s; compute_snrs := compute_snrs h |}.

(** ** The count table *)

(** The columns of the frame [aggregate_count_units] starts from. *)
Definition count_columns (exhaustive : bool) : list string :=
  ["num_gt"; "num_sorter"; "num_well_detected"; "num_redundant";
   "num_overmerged"]
  ++ (if exhaustive then ["num_false_positive"; "num_bad"] else []).

(** The cells one pass of the loop writes for an output, in the order of
    the assignments. *)
Definition count_cells (wd rd om : option Score) (exhaustive : bool)
    (gt so : Sorting) (comp : Comparison) : list (string * Z) :=
  [("num_gt", Z.of_nat (length (get_unit_ids gt)));
   ("num_sorter", Z.of_nat (length (get_unit_ids so)));
   ("num_well_detected", count_well_detected_units comp wd);
   ("num_redundant", count_redundant_units comp rd);
   ("num_overmerged", count_overmerged_units comp om)]
  ++ (if exhaustive
      then [("num_false_positive", count_false_positive_units comp rd);
            ("num_bad", count_bad_units comp)]
      else []).

Definition write_cells (df : DataFrame) (key : string * string)
    (cells : list (string * Z)) : DataFrame :=
  foldl (λ df cv, loc_setitem df key cv.1 cv.2) df cells.

(** One pass of the loop of [aggregate_count_units] on an output whose
    ground truth loads and whose comparison is in the map [d]. *)
Definition count_step (f : Folder) (names : list string)
    (d : gmap (string * string) Comparison) (exhaustive : bool)
    (wd rd om : option Score) (df : DataFrame)
    (x : string * string * Sorting) : DataFrame :=
  match ground_truth_of f names (Some x.1.1), d !! x.1 with
  | Ok gt, Some comp =>
      write_cells df x.1 (count_cells wd rd om exhaustive gt x.2 comp)
  | _, _ => df
  end.

(** The frame before the loop. *)
Definition count_frame (index : list (string * string)) (exhaustive : bool)
    : DataFrame :=
  let count_units :=
    DataFrame_new index ["num_gt"; "num_sorter"; "num_well_detected";
                         "num_redundant"; "num_overmerged"] in
  if exhaustive then
    setitem_None (setitem_None count_units "num_false_positive") "num_bad"
  else count_units.

(** The row the table should hold for an output, by the spec's words. *)
Definition count_row (f : Folder) (names : list string) (e : bool)
    (kw : Kwargs) (wd rd om : option Score)
    (x : string * string * Sorting)
    : string * string * list (option Z) :=
  match ground_truth_of f names (Some x.1.1) with
  | Ok gt =>
      (x.1, Some <$> (count_cells wd rd om e gt x.2
                        (compare_sorter_to_ground_truth gt x.2 e kw)).*2)
  | Raise _ => (x.1, [])
  end.

(** An output the loops of the aggregation can process: its ground truth
    loads and its comparison is in the map. *)
Definition aggregable (f : Folder) (names : list string)
    (d : gmap (string * string) Comparison)
    (x : string * string * Sorting) : Prop :=
  is_ok (ground_truth_of f names (Some x.1.1)) = true ∧ is_Some (d !! x.1).

(** The heap [run_comparisons e kw] ends in on a study it can process. *)
Definition compared (h : Heap) (e : bool) (kw : Kwargs) : Heap :=
  with_self h (set_exhaustive_gt
    (set_comparisons (self h)
       (Some (comparison_map (disk h) (rec_names (self h)) e kw)))
    (Some e)).

(** The frame of per-unit rows one output contributes. *)
Definition perf_frame (d : gmap (string * string) Comparison)
    (x : string * string * Sorting) : list (string * string * Z * Perf) :=
  match d !! x.1 with
  | Some comp =>
      (λ '(gt_unit_id, p), (x.1.1, x.1.2, gt_unit_id, p))
        <$> get_performance comp
  | None => []
  end.

(** The same frame by the spec's words: the performance of the output
    scored against the ground truth of its case. *)
Definition perf_rows (f : Folder) (names : list string) (e : bool)
    (kw : Kwargs) (x : string * string * Sorting)
    : list (string * string * Z * Perf) :=
  match ground_truth_of f names (Some x.1.1) with
  | Ok gt =>
      (λ '(gt_unit_id, p), (x.1.1, x.1.2, gt_unit_id, p))
        <$> get_performance (compare_sorter_to_ground_truth gt x.2 e kw)
  | Raise _ => []
  end.

(** The per-unit table by the spec's words, for the outputs [l] in their
    order: the frames of the outputs, concatenated. *)
Definition perf_table (f : Folder) (names : list string) (e : bool)
    (kw : Kwargs) (l : list (string * string * Sorting))
    : result (list (string * string * Z * Perf)) :=
  if bool_decide (l = []) then Raise (ValueError "No objects to concatenate")
  else Ok (concat (perf_rows f names e kw <$> l)).

(** Two results hold the same rows, possibly in another order, or the
    same exception. *)
Definition same_rows {A} (r1 r2 : result (list A)) : Prop :=
  match r1, r2 with
  | Ok l1, Ok l2 => l1 ≡ₚ l2
  | Raise e1, Raise e2 => e1 = e2
  | _, _ => False
  end.

(** ** The SNR file of a case *)

Definition snr_file (rec_name : string) : string :=
  "SNR " +:+ rec_name +:+ ".txt".

(** The cache file of a case, when the metrics folder holds one. *)
Definition cached (h : Heap) (rec_name : string) : option FileText :=
  metrics_dir (disk h) ≫= (.!! snr_file rec_name).


(** What [_compute_snr] answers for a resolved case name, as a function of
    the folder and the bound computation. *)
Definition snr_table (f : Folder)
    (snr : Sorting → Recording → result (list Measure)) (rec_name : string)
    : result (list (Z * Measure)) :=
  match get_one_recording f rec_name with
  | Raise e => Raise e
  | Ok rec =>
      match NpzSortingExtractor f (rec_name +:+ ".npz") with
      | Raise e => Raise e
      | Ok gt_sorting =>
          match snr gt_sorting rec with
          | Raise e => Raise e
          | Ok snr_list =>
              if bool_decide (length snr_list
                              = length (get_unit_ids gt_sorting))
              then Ok (zip (get_unit_ids gt_sorting) snr_list)
              else Raise (ValueError
                     "Length of values does not match length of index")
          end
      end
  end.

(** ** The dispatcher behind [run_sorters] *)

Definition has_output (f : Folder) (key : string * string) : bool :=
  bool_decide (key ∈ iter_computed_names f).

(** The output and the run-time record of a pair replace the ones the
    folder held for it. *)
Definition store_output (f : Folder) (key : string * string)
    (so : Sorting) (duration : Measure) : Folder :=
  {| names := names f; ground_truth_dir := ground_truth_dir f;
     recordings := recordings f;
     sortings_dir := filter (λ x, x.1 ≠ key) (sortings_dir f) ++ [(key, so)];
     run_times := filter (λ x, x.1 ≠ key) (run_times f) ++ [(key, duration)];
     metrics_dir := metrics_dir f; tables_dir := tables_dir f |}.

Definition dispatch_pair (engine_run : string → string → Sorting * Measure)
    (mode : Mode) (f : Folder) (key : string * string) : Folder :=
  match mode with
  | keep =>
      if has_output f key then f
      else store_output f key (engine_run key.1 key.2).1
                              (engine_run key.1 key.2).2
  | overwrite =>
      store_output f key (engine_run key.1 key.2).1 (engine_run key.1 key.2).2
  end.

(** Modelled from the spec: [studytools.run_study_sorters] is absent from
    the sources.  By section 4.2, for every (case, engine) in the cross
    product of the known cases and the requested engines, mode "keep"
    skips a pair whose output already exists and mode "overwrite" always
    runs it again, replacing the prior output and its recorded duration.
    [default_mode] is the default of the [mode] keyword, which the spec
    does not give; [engine_run case engine] is what a run produces. *)
Definition run_study_sorters_spec (default_mode : Mode)
    (engine_run : string → string → Sorting * Measure)
    (f : Folder) (sorter_list : list string) (sorter_params : Params)
    (mode : option Mode) (engine : string) (engine_kargs : EngineKargs)
    (verbose : bool) : Folder * result unit :=
  (foldl (dispatch_pair engine_run (default default_mode mode)) f
         (rec_name ← get_rec_names f; sorter_name ← sorter_list;
          [(rec_name, sorter_name)]),
   Ok tt).

(** ** Example studies *)

(** A study folder with the given cases and computed outputs: every case
    has a ground truth of three units and the recording [rec], every output
    a run-time record of [duration]. *)
Definition example_folder (rec : Recording) (duration : Measure)
    (cases : list string) (outputs : list (string * string * Sorting))
    : Folder :=
  {| names := cases;
     ground_truth_dir :=
       list_to_map ((λ c, (c +:+ ".npz",
                           {| get_unit_ids := [0; 1; 2];
                              spikes := [(10, 0); (25, 1); (31, 2)] |}))
                      <$> cases);
     recordings := list_to_map ((λ c, (c, rec)) <$> cases);
     sortings_dir := outputs;
     run_times := (λ x, (x.1, duration)) <$> outputs;
     metrics_dir := None;
     tables_dir := None |}.

(** A computation that answers [v] for every unit. *)
Definition constant_snr (v : Measure) (gt : Sorting) (rec : Recording)
    : result (list Measure) :=
  Ok ((λ _, v) <$> get_unit_ids gt).

(** A count that answers the number of units of the tested sorting. *)
Definition count_tested (c : Comparison) (score : option Score) : Z :=
  Z.of_nat (length (get_unit_ids (sorting2 c))).

(** A performance table with the row [p] for every ground-truth unit. *)
Definition constant_perf (p : Perf) (c : Comparison) : list (Z * Perf) :=
  (λ u, (u, p)) <$> get_unit_ids (sorting1 c).

(** ** Further methods of the class *)

Context {GtDict : Type}.

(** [studytools.setup_comparison_study(study_folder, gt_dict)], absent from
    the sources and taken as a parameter: the folder it lays out. *)
Variable setup_comparison_study : Folder → GtDict → Folder.

(** [GroundTruthStudy.create(study_folder, gt_dict)] *)
Definition create (f : Folder) (gt_dict : GtDict)
    (snr : Sorting → Recording → result (list Measure)) : Heap :=
  __init__ (setup_comparison_study f gt_dict) snr.

(** What the loop of [get_sorting] keeps after one output. *)
Definition pick_sorting (sort_name rec_name : string)
    (selected_sorting : option Sorting) (x : string * string * Sorting)
    : option Sorting :=
  if bool_decide (sort_name = x.1.2) && bool_decide (x.1.1 = rec_name)
  then Some x.2 else selected_sorting.

(** Everything in the folder but the metrics files. *)
Definition outside_metrics (f : Folder) : Folder := set_metrics_dir f None.

Definition with_disk (h : Heap) (f : Folder) : Heap :=
  {| disk := f; self := self h; compute_snrs := compute_snrs h |}.

(** What the loop of [run_comparisons] leaves when started on the map [d]:
    the map after the outputs before the first one whose ground truth fails
    to load, and how the loop ended. *)
Fixpoint score_all (f : Folder) (names : list string) (e : bool) (kw : Kwargs)
    (d : gmap (string * string) Comparison)
    (l : list (string * string * Sorting))
    : gmap (string * string) Comparison * result unit :=
  match l with
  | [] => (d, Ok tt)
  | x :: l' =>
      match ground_truth_of f names (Some x.1.1) with
      | Ok gt =>
          score_all f names e kw
            (<[x.1 := compare_sorter_to_ground_truth gt x.2 e kw]> d) l'
      | Raise err => (d, Raise err)
      end
  end.



(** * Properties *)

(** ** Basic facts *)

Lemma preserves_ret {A} (a : A) h : preserves (ret a) h.
Proof. reflexivity. Qed.

Lemma preserves_raise {A} e h : preserves (@raise A e) h.
Proof. reflexivity. Qed.

Lemma preserves_lift {A} (r : result A) h : preserves (lift r) h.
Proof. reflexivity. Qed.

Lemma preserves_get_heap h : preserves get_heap h.
Proof. reflexivity. Qed.

Lemma preserves_bind {A B} (m : M A) (k : A → M B) h :
  preserves m h → (∀ a, preserves (k a) h) → preserves (bind m k) h.
Proof.
  unfold preserves, bind. intros Hm Hk.
  destruct (m h) as [h' [a|e]]; simpl in *; subst; auto.
Qed.

Lemma preserves_for_fold {A B} (l : list A) (acc : B) body h :
  (∀ acc x, preserves (body acc x) h) →
  preserves (for_fold l acc body) h.
Proof.
  intros Hbody. revert acc.
  induction l as [|x l IH]; intros acc; simpl.
  - apply preserves_ret.
  - apply preserves_bind; auto.
Qed.

Lemma preserves_run {A} (m : M A) h : preserves m h → m h = (h, (m h).2).
Proof. unfold preserves. destruct (m h); simpl; congruence. Qed.

Lemma _check_rec_name_eq rec_name h :
  _check_rec_name rec_name h
  = (after_lazy_scan h, select_rec_name (known_cases h) rec_name).
Proof.
  unfold _check_rec_name, known_cases, after_lazy_scan, bind, get_heap, lift.
  destruct (_is_scanned (self h)); reflexivity.
Qed.

Lemma after_lazy_scan_scanned h :
  _is_scanned (self h) = true → after_lazy_scan h = h.
Proof. unfold after_lazy_scan. by intros ->. Qed.

Lemma known_cases_scanned h :
  _is_scanned (self h) = true → known_cases h = rec_names (self h).
Proof. unfold known_cases. intros H. by rewrite after_lazy_scan_scanned. Qed.

Lemma preserves_check_rec_name rec_name h :
  _is_scanned (self h) = true → preserves (_check_rec_name rec_name) h.
Proof.
  intros H. unfold preserves.
  by rewrite _check_rec_name_eq, after_lazy_scan_scanned.
Qed.

Lemma get_ground_truth_eq rec_name h :
  _is_scanned (self h) = true →
  get_ground_truth rec_name h
  = (h, ground_truth_of (disk h) (rec_names (self h)) rec_name).
Proof.
  intros H. unfold get_ground_truth, bind, ground_truth_of.
  rewrite _check_rec_name_eq, after_lazy_scan_scanned, known_cases_scanned by done.
  by destruct (select_rec_name _ _).
Qed.

Lemma init_scanned f snr : _is_scanned (self (__init__ f snr)) = true.
Proof. reflexivity. Qed.

(** *** [list.index] and the selection rule *)

Lemma list_index_None l x : list_index l x = None ↔ x ∉ l.
Proof.
  induction l as [|y l IH]; simpl.
  - split; [intros _; apply not_elem_of_nil | done].
  - rewrite not_elem_of_cons. destruct (decide (y = x)) as [->|Hne].
    + split; [done | intros [? _]; done].
    + destruct (list_index l x) eqn:E; simpl.
      * split; [done|]. intros [_ Hx]. by apply IH in Hx.
      * split; [|done]. intros _. split; [congruence | by apply IH].
Qed.

Lemma list_index_Some l x i : list_index l x = Some i → l !! i = Some x.
Proof.
  revert i. induction l as [|y l IH]; intros i; simpl; [done|].
  destruct (decide (y = x)) as [->|Hne].
  - by intros [= <-].
  - destruct (list_index l x) as [j|] eqn:E; simpl; [|done].
    intros [= <-]. simpl. by apply IH.
Qed.

Lemma select_single c rec_name : select_rec_name [c] rec_name = Ok c.
Proof. unfold select_rec_name. simpl. by destruct rec_name. Qed.

Lemma select_ambiguous l :
  (2 ≤ length l)%nat →
  select_rec_name l None
  = Raise (Exception "Pass 'rec_name' parameter to select which recording to use.").
Proof.
  intros Hl. unfold select_rec_name.
  rewrite bool_decide_eq_true_2 by lia. done.
Qed.

Lemma select_unknown l n :
  n ∉ l → length l ≠ 1%nat →
  select_rec_name l (Some n) = Raise (ValueError "is not in list").
Proof.
  intros Hn Hl. unfold select_rec_name.
  rewrite andb_false_r, (bool_decide_eq_false_2 _ Hl). simpl.
  by apply list_index_None in Hn as ->.
Qed.

Lemma select_known l n :
  n ∈ l → length l ≠ 1%nat → select_rec_name l (Some n) = Ok n.
Proof.
  intros Hn Hl. unfold select_rec_name.
  rewrite andb_false_r, (bool_decide_eq_false_2 _ Hl). simpl.
  destruct (list_index l n) as [i|] eqn:E.
  - apply list_index_Some in E. unfold list_get. by rewrite E.
  - apply list_index_None in E. done.
Qed.

Lemma select_Ok_elem l rec_name r :
  select_rec_name l rec_name = Ok r → r ∈ l.
Proof.
  unfold select_rec_name, list_get.
  destruct (bool_decide (1 < length l)%nat && bool_decide (rec_name = None));
    [done|].
  case_bool_decide.
  - destruct (l !! 0%nat) eqn:E; [|done]. intros [= <-].
    by eapply list_elem_of_lookup_2.
  - destruct (rec_name ≫= list_index l) as [i|]; [|done].
    destruct (l !! i) eqn:E; [|done]. intros [= <-].
    by eapply list_elem_of_lookup_2.
Qed.

(** A name the rule produced resolves to itself again. *)
Lemma select_again l rec_name r :
  select_rec_name l rec_name = Ok r → select_rec_name l (Some r) = Ok r.
Proof.
  intros H. destruct (decide (length l = 1%nat)) as [Hl|Hl].
  - destruct l as [|c [|??]]; try done.
  - apply select_known; [by eapply select_Ok_elem | done].
Qed.

(** ** Case resolution *)

(** C1 (amended). [_check_rec_name] on a study whose known cases are
    [known_cases h]: with exactly one known case and no name it returns that
    case; with two or more known cases and no name it fails with a usage
    error; an explicit name that matches no known case fails with a lookup
    error whenever the number of known cases is not one, and an explicit
    name that matches is returned as it is; with exactly one known case an
    explicit name is not looked up at all and the single case is returned. *)
Theorem check_rec_name_rule (h : Heap) :
  (∀ c, known_cases h = [c] → (_check_rec_name None h).2 = Ok c)
  ∧ ((2 ≤ length (known_cases h))%nat →
     ∃ e, (_check_rec_name None h).2 = Raise e ∧ usage_error e)
  ∧ (∀ n, n ∉ known_cases h → length (known_cases h) ≠ 1%nat →
     ∃ e, (_check_rec_name (Some n) h).2 = Raise e ∧ lookup_error e)
  ∧ (∀ n, n ∈ known_cases h → length (known_cases h) ≠ 1%nat →
     (_check_rec_name (Some n) h).2 = Ok n)
  ∧ (∀ n c, known_cases h = [c] → (_check_rec_name (Some n) h).2 = Ok c).
Proof.
  repeat split.
  - intros c Hc. rewrite _check_rec_name_eq, Hc. apply select_single.
  - intros Hl. rewrite _check_rec_name_eq. simpl.
    rewrite select_ambiguous by done. by eexists.
  - intros n Hn Hl. rewrite _check_rec_name_eq. simpl.
    rewrite select_unknown by done. by eexists.
  - intros n Hn Hl. rewrite _check_rec_name_eq. simpl.
    by apply select_known.
  - intros n c Hc. rewrite _check_rec_name_eq, Hc. apply select_single.
Qed.

(** ** Looking an output up *)

Lemma get_sorting_loop_preserves (sort_name rec_name : string)
    (l : list (string * string * Sorting)) sel h :
  preserves
    (for_fold l sel
       (λ selected_sorting '(r_name, sorter_name, sorting),
          ret (if bool_decide (sort_name = sorter_name)
                  && bool_decide (r_name = rec_name)
               then Some sorting else selected_sorting))) h.
Proof. apply preserves_for_fold. by intros acc [[??]?]. Qed.

Lemma get_sorting_loop_absent sort_name (rec_name : string)
    (l : list (string * string * Sorting)) h :
  (∀ so, (rec_name, sort_name, so) ∉ l) →
  (for_fold l None
     (λ selected_sorting '(r_name, sorter_name, sorting),
        ret (if bool_decide (sort_name = sorter_name)
                && bool_decide (r_name = rec_name)
             then Some sorting else selected_sorting)) h).2 = Ok None.
Proof.
  induction l as [|[[r sn] so] l IH]; intros Hl; simpl; [done|].
  unfold bind, ret. simpl.
  destruct (bool_decide (sort_name = sn) && bool_decide (r = rec_name)) eqn:E.
  - apply andb_true_iff in E as [->%bool_decide_eq_true ->%bool_decide_eq_true].
    destruct (Hl so). left.
  - apply IH. intros so' Hso. apply (Hl so'). by right.
Qed.

Lemma get_sorting_absent_result (h : Heap) (sort_name : string)
    (rec_name : option string) (r : string) :
  _is_scanned (self h) = true →
  select_rec_name (rec_names (self h)) rec_name = Ok r →
  sort_name ∉ sorter_names (self h)
    ∨ (∀ so, (r, sort_name, so) ∉ iter_computed_sorting (disk h)) →
  get_sorting sort_name rec_name h = (h, Ok None).
Proof.
  intros Hs Hr Habsent. unfold get_sorting, bind.
  rewrite _check_rec_name_eq, after_lazy_scan_scanned, known_cases_scanned,
    Hr by done.
  simpl. case_bool_decide as Hin; [|done].
  destruct Habsent as [?|Habsent]; [done|].
  rewrite preserves_run by apply get_sorting_loop_preserves.
  by rewrite get_sorting_loop_absent.
Qed.

Lemma get_sorting_raises_only_resolution (h : Heap) sort_name rec_name e :
  (get_sorting sort_name rec_name h).2 = Raise e →
  (_check_rec_name rec_name h).2 = Raise e.
Proof.
  unfold get_sorting, bind.
  destruct (_check_rec_name rec_name h) as [h' [r|e']]; simpl;
    [|by intros [= ->]].
  unfold get_heap. simpl. case_bool_decide; [|done].
  generalize (None : option Sorting).
  induction (iter_computed_sorting (disk h')) as [|[[??]?] l IH];
    intros sel; simpl; [done|].
  unfold bind, ret. simpl. apply IH.
Qed.

(** C9 (amended). On a constructed study where case resolution gives [r],
    [get_sorting] of an engine name that is not among the known engine
    names, or that has no computed output for [r], returns the absent value
    [None] without raising and without touching the heap; and whenever
    [get_sorting] raises, the exception is the one case resolution raised. *)
Theorem get_sorting_absent (h : Heap) (sort_name : string)
    (rec_name : option string) :
  (∀ r, _is_scanned (self h) = true →
        select_rec_name (rec_names (self h)) rec_name = Ok r →
        sort_name ∉ sorter_names (self h)
          ∨ (∀ so, (r, sort_name, so) ∉ iter_computed_sorting (disk h)) →
        get_sorting sort_name rec_name h = (h, Ok None))
  ∧ (∀ e, (get_sorting sort_name rec_name h).2 = Raise e →
          (_check_rec_name rec_name h).2 = Raise e).
Proof.
  split.
  - intros r. apply get_sorting_absent_result.
  - intros e. apply get_sorting_raises_only_resolution.
Qed.

(** ** Aggregation before any comparison *)

(** C3 (amended). On a study whose comparison map was never populated,
    [aggregate_performance_by_units], [aggregate_count_units] and
    [aggregate_dataframes] raise the assertion error "run_comparisons
    first" and leave the heap as it was (no table is written);
    [aggregate_run_times] has no such precondition and returns the run-time
    table. *)
Theorem aggregation_before_comparisons (h : Heap)
    (copy_into_folder : bool) (wd rd om : option Score) :
  comparisons (self h) = None →
  aggregate_performance_by_units h
    = (h, Raise (AssertionError "run_comparisons first"))
  ∧ aggregate_count_units wd rd om h
    = (h, Raise (AssertionError "run_comparisons first"))
  ∧ aggregate_dataframes copy_into_folder wd rd om h
    = (h, Raise (AssertionError "run_comparisons first"))
  ∧ aggregate_run_times h = (h, Ok (collect_run_times (disk h))).
Proof.
  intros Hc.
  assert (aggregate_performance_by_units h
          = (h, Raise (AssertionError "run_comparisons first"))) as Hperf.
  { unfold aggregate_performance_by_units, bind, get_heap. simpl.
    by rewrite Hc. }
  split; [done|]. split; [|split; [|done]].
  - unfold aggregate_count_units, bind, get_heap. simpl. by rewrite Hc.
  - unfold aggregate_dataframes, bind at 1. simpl.
    unfold bind at 1. by rewrite Hperf.
Qed.

(** ** What aggregation leaves alone *)

Lemma preserves_comparisons_getitem key h :
  preserves (comparisons_getitem key) h.
Proof.
  unfold preserves, comparisons_getitem, bind, get_heap. simpl.
  destruct (comparisons (self h)) as [d|]; [|done].
  by destruct (d !! key).
Qed.

Lemma preserves_get_ground_truth rec_name h :
  _is_scanned (self h) = true → preserves (get_ground_truth rec_name) h.
Proof. intros H. unfold preserves. by rewrite get_ground_truth_eq. Qed.

Lemma preserves_get_recording rec_name h :
  _is_scanned (self h) = true → preserves (get_recording rec_name) h.
Proof.
  intros H. unfold get_recording.
  apply preserves_bind; [by apply preserves_check_rec_name|].
  intros r. apply preserves_bind; [apply preserves_get_heap|].
  intros h'. apply preserves_lift.
Qed.

Lemma preserves_aggregate_run_times h : preserves aggregate_run_times h.
Proof. reflexivity. Qed.

Lemma preserves_aggregate_performance_by_units h :
  preserves aggregate_performance_by_units h.
Proof.
  unfold aggregate_performance_by_units.
  apply preserves_bind; [apply preserves_get_heap|]. intros h0.
  case_bool_decide; [apply preserves_raise|].
  apply preserves_bind.
  - apply preserves_for_fold. intros acc [[r sn] so].
    apply preserves_bind; [apply preserves_comparisons_getitem|].
    intros c. apply preserves_ret.
  - intros l. case_bool_decide; [apply preserves_raise | apply preserves_ret].
Qed.

Lemma preserves_aggregate_count_units wd rd om h :
  _is_scanned (self h) = true →
  preserves (aggregate_count_units wd rd om) h.
Proof.
  intros Hs. unfold aggregate_count_units.
  apply preserves_bind; [apply preserves_get_heap|]. intros h0.
  case_bool_decide; [apply preserves_raise|].
  apply preserves_for_fold. intros acc [[r sn] so].
  apply preserves_bind; [by apply preserves_get_ground_truth|]. intros gt.
  apply preserves_bind; [apply preserves_comparisons_getitem|]. intros c.
  apply preserves_bind; [apply preserves_get_heap|]. intros h1.
  destruct (truthy _); apply preserves_ret.
Qed.

(** The heap after [aggregate_dataframes] is the heap before it, or that
    heap with files written in the tables folder. *)
Lemma aggregate_dataframes_heap (P : Heap → Prop) copy wd rd om h :
  _is_scanned (self h) = true →
  P h →
  (∀ d, copy = true →
        P {| disk := set_tables_dir (disk h) (Some d); self := self h;
             compute_snrs := compute_snrs h |}) →
  P (aggregate_dataframes copy wd rd om h).1.
Proof.
  intros Hs Hsame Hwritten. unfold aggregate_dataframes.
  unfold bind at 1. simpl.
  unfold bind at 1.
  rewrite (preserves_run _ _ (preserves_aggregate_performance_by_units h)).
  destruct (aggregate_performance_by_units h).2 as [perfs|e]; [|done].
  unfold bind at 1.
  rewrite (preserves_run _ _ (preserves_aggregate_count_units wd rd om h Hs)).
  destruct (aggregate_count_units wd rd om h).2 as [cu|e]; [|done].
  destruct copy; [|done].
  unfold write_table, bind, get_heap, put_disk, lift, ret, write_file,
    makedirs_if_missing. simpl.
  destruct (tables_dir (disk h)); simpl; by apply Hwritten.
Qed.

(** C10. On a constructed (scanned) study the three in-memory aggregation
    methods return the heap they were given, whatever they answer, and
    [aggregate_dataframes] leaves the object, the binding of the SNR
    computation and every part of the study folder outside the tables
    folder as they were; without persistence it leaves the whole heap. *)
Theorem aggregation_leaves_state (h : Heap) (copy_into_folder : bool)
    (wd rd om : option Score) :
  _is_scanned (self h) = true →
  (aggregate_run_times h).1 = h
  ∧ (aggregate_performance_by_units h).1 = h
  ∧ (aggregate_count_units wd rd om h).1 = h
  ∧ self (aggregate_dataframes copy_into_folder wd rd om h).1 = self h
  ∧ outside_tables (disk (aggregate_dataframes copy_into_folder wd rd om h).1)
    = outside_tables (disk h)
  ∧ (copy_into_folder = false →
     (aggregate_dataframes copy_into_folder wd rd om h).1 = h).
Proof.
  intros Hs.
  split; [apply preserves_aggregate_run_times|].
  split; [apply preserves_aggregate_performance_by_units|].
  split; [by apply preserves_aggregate_count_units|].
  repeat split; apply aggregate_dataframes_heap; try done.
  by intros d ->.
Qed.

(** ** Dispatching *)

Lemma run_sorters_mode_irrelevant sorter_list sorter_params (m1 m2 : Mode)
    engine engine_kargs verbose h :
  run_sorters sorter_list sorter_params m1 engine engine_kargs verbose h
  = run_sorters sorter_list sorter_params m2 engine engine_kargs verbose h.
Proof. reflexivity. Qed.

(** ** Scanning *)

Lemma compare_Lt_trans x y z :
  String.compare x y = Lt → String.compare y z = Lt → String.compare x z = Lt.
Proof.
  intros Hxy Hyz.
  apply OrderedTypeEx.String_as_OT.cmp_lt.
  apply OrderedTypeEx.String_as_OT.cmp_lt in Hxy, Hyz.
  by eapply OrderedTypeEx.String_as_OT.lt_trans.
Qed.

Lemma compare_Gt_Lt x y : String.compare x y = Gt → String.compare y x = Lt.
Proof. intros H. rewrite String.compare_antisym, H. done. Qed.

Lemma compare_refl x : String.compare x x = Eq.
Proof.
  pose proof (String.compare_antisym x x) as H.
  by destruct (String.compare x x).
Qed.

Lemma unique_insert_elem x y l : y ∈ unique_insert x l ↔ y = x ∨ y ∈ l.
Proof.
  induction l as [|z l IH]; simpl.
  - rewrite list_elem_of_singleton. split; [auto|]. intros [?|H]; [done|].
    by apply not_elem_of_nil in H.
  - destruct (String.compare x z) eqn:E.
    + apply String.compare_eq_iff in E as ->. rewrite elem_of_cons. tauto.
    + rewrite !elem_of_cons. tauto.
    + rewrite !elem_of_cons, IH. tauto.
Qed.

Lemma unique_insert_increasing x l :
  increasing l → increasing (unique_insert x l).
Proof.
  induction l as [|z l IH]; simpl; [by intros _|].
  intros [Hz Hl]. destruct (String.compare x z) eqn:E; simpl.
  - done.
  - split; [|done]. constructor; [done|].
    eapply Forall_impl; [exact Hz|]. intros y Hy. by eapply compare_Lt_trans.
  - split; [|by apply IH].
    apply Forall_forall. intros y [->|Hy]%unique_insert_elem.
    + by apply compare_Gt_Lt.
    + rewrite Forall_forall in Hz. by apply Hz.
Qed.

Lemma increasing_NoDup l : increasing l → NoDup l.
Proof.
  induction l as [|x l IH]; simpl; [constructor|].
  intros [Hx Hl]. constructor; [|by apply IH].
  intros Hin. rewrite Forall_forall in Hx. specialize (Hx x Hin).
  by rewrite compare_refl in Hx.
Qed.

Lemma np_unique_increasing l : increasing (np_unique l).
Proof.
  induction l as [|x l IH]; simpl; [done|]. by apply unique_insert_increasing.
Qed.

Lemma np_unique_NoDup l : NoDup (np_unique l).
Proof. apply increasing_NoDup, np_unique_increasing. Qed.

Lemma np_unique_elem x l : x ∈ np_unique l ↔ x ∈ l.
Proof.
  induction l as [|y l IH]; simpl; [done|].
  rewrite unique_insert_elem, elem_of_cons, IH. done.
Qed.

(** C8. Scanning is a function of the folder alone and does not change it:
    a second scan of the unchanged folder returns the very heap the first
    one produced, so the three lists are identical.  The engine-name list
    has no repetition and holds exactly the engine names that occur in the
    discovered pairs; the pair list is the directory listing as it is, so
    it has no repetition when the listing yields every pair once. *)
Theorem scan_folder_idempotent (h : Heap) :
  scan_folder (scan_folder h).1 = ((scan_folder h).1, Ok tt)
  ∧ disk (scan_folder h).1 = disk h
  ∧ rec_names (self (scan_folder h).1) = get_rec_names (disk h)
  ∧ computed_names (self (scan_folder h).1) = iter_computed_names (disk h)
  ∧ NoDup (sorter_names (self (scan_folder h).1))
  ∧ (∀ e, e ∈ sorter_names (self (scan_folder h).1)
          ↔ ∃ c, (c, e) ∈ computed_names (self (scan_folder h).1))
  ∧ (NoDup (iter_computed_names (disk h)) →
     NoDup (computed_names (self (scan_folder h).1))).
Proof.
  repeat split; try done.
  - apply np_unique_NoDup.
  - simpl. rewrite np_unique_elem, list_elem_of_fmap.
    intros [[c e'] [-> Hin]]. by exists c.
  - simpl. intros [c Hin]. rewrite np_unique_elem, list_elem_of_fmap.
    by exists (c, e).
Qed.

(** ** Running the comparisons *)

Lemma run_comparisons_loop e kw (l : list (string * string * Sorting)) :
  ∀ h d,
  _is_scanned (self h) = true →
  comparisons (self h) = Some d →
  forallb (λ x, is_ok (ground_truth_of (disk h) (rec_names (self h))
                         (Some x.1.1))) l = true →
  for_each l
    (λ '(rec_name, sorter_name, sorting),
       let* gt_sorting := get_ground_truth (Some rec_name) in
       let sc := compare_sorter_to_ground_truth gt_sorting sorting e kw in
       comparisons_setitem (rec_name, sorter_name) sc) h
  = (with_self h (set_comparisons (self h)
       (Some (foldl (score_entry (disk h) (rec_names (self h)) e kw) d l))),
     Ok tt).
Proof.
  induction l as [|[[r sn] so] l IH]; intros h d Hs Hd Hok.
  - simpl. unfold ret, with_self, set_comparisons. rewrite <- Hd.
    by destruct h as [? [] ?].
  - simpl in Hok. apply andb_true_iff in Hok as [Hx Hok].
    cbn [for_each]. unfold bind at 1. unfold bind at 1.
    rewrite get_ground_truth_eq by done.
    cbn [foldl]. unfold score_entry at 2. cbn [fst snd].
    destruct (ground_truth_of (disk h) (rec_names (self h)) (Some r))
      as [gt|] eqn:Egt; [|done].
    unfold comparisons_setitem, bind at 1, get_heap. rewrite Hd.
    unfold put_self.
    rewrite (IH _ (<[(r, sn) := compare_sorter_to_ground_truth gt so e kw]> d));
      done.
Qed.

Lemma run_comparisons_eq e kw h :
  _is_scanned (self h) = true →
  ground_truths_load (disk h) (rec_names (self h)) = true →
  run_comparisons e kw h
  = (with_self h (set_exhaustive_gt
       (set_comparisons (self h)
          (Some (comparison_map (disk h) (rec_names (self h)) e kw)))
       (Some e)), Ok tt).
Proof.
  intros Hs Hok. unfold run_comparisons.
  unfold bind at 1, get_heap. unfold bind at 1, put_self.
  unfold bind at 1. unfold bind at 1.
  rewrite (run_comparisons_loop e kw _ _ ∅); done.
Qed.



Lemma score_entry_flag f names e kw l :
  ∀ d, (∀ k c, d !! k = Some c → comp_exhaustive_gt c = e) →
  ∀ k c, foldl (score_entry f names e kw) d l !! k = Some c →
         comp_exhaustive_gt c = e.
Proof.
  induction l as [|x l IH]; intros d Hd; simpl; [done|].
  apply IH. intros k c. unfold score_entry.
  destruct (ground_truth_of f names (Some x.1.1)); [|by apply Hd].
  rewrite lookup_insert. case_decide; [by intros [= <-] | by apply Hd].
Qed.

Lemma score_entry_dom f names e kw l :
  forallb (λ x, is_ok (ground_truth_of f names (Some x.1.1))) l = true →
  ∀ d k, is_Some (foldl (score_entry f names e kw) d l !! k)
         ↔ is_Some (d !! k) ∨ k ∈ l.*1.
Proof.
  induction l as [|x l IH]; intros Hok d k; simpl.
  - rewrite elem_of_nil. split; [by left | by intros [?|[]]].
  - simpl in Hok. apply andb_true_iff in Hok as [Hx Hok].
    rewrite IH by done. unfold score_entry.
    destruct (ground_truth_of f names (Some x.1.1)); [|done].
    rewrite lookup_insert, elem_of_cons. case_decide; subst.
    + split; [auto|]. intros _. left. by eexists.
    + split.
      * intros [?|?]; [by left | by right; right].
      * intros [?|[->|?]]; [by left | done | by right].
Qed.

Lemma run_comparisons_loop_outcome e kw (l : list (string * string * Sorting)) :
  ∀ h d,
  _is_scanned (self h) = true →
  comparisons (self h) = Some d →
  for_each l
    (λ '(rec_name, sorter_name, sorting),
       let* gt_sorting := get_ground_truth (Some rec_name) in
       let sc := compare_sorter_to_ground_truth gt_sorting sorting e kw in
       comparisons_setitem (rec_name, sorter_name) sc) h
  = (with_self h (set_comparisons (self h)
       (Some (score_all (disk h) (rec_names (self h)) e kw d l).1)),
     (score_all (disk h) (rec_names (self h)) e kw d l).2).
Proof.
  induction l as [|[[r sn] so] l IH]; intros h d Hs Hd.
  - simpl. unfold ret, with_self, set_comparisons. rewrite <- Hd.
    by destruct h as [? [] ?].
  - cbn [for_each score_all fst snd]. unfold bind at 1. unfold bind at 1.
    rewrite get_ground_truth_eq by done.
    destruct (ground_truth_of (disk h) (rec_names (self h)) (Some r))
      as [gt|err].
    + unfold comparisons_setitem, bind at 1, get_heap. rewrite Hd.
      unfold put_self.
      exact (IH {| disk := disk h;
                   self := set_comparisons (self h)
                     (Some (<[(r, sn) := compare_sorter_to_ground_truth
                                          gt so e kw]> d));
                   compute_snrs := compute_snrs h |}
                (<[(r, sn) := compare_sorter_to_ground_truth gt so e kw]> d)
                Hs eq_refl).
    + cbn [fst snd]. unfold with_self, set_comparisons. rewrite <- Hd.
      by destruct h as [? [] ?].
Qed.

(** [run_comparisons] on any scanned study, whether or not it returns. *)
Lemma run_comparisons_run e kw h :
  _is_scanned (self h) = true →
  run_comparisons e kw h
  = let sa := score_all (disk h) (rec_names (self h)) e kw ∅
                (iter_computed_sorting (disk h)) in
    let s := set_comparisons (self h) (Some sa.1) in
    (with_self h (if is_ok sa.2 then set_exhaustive_gt s (Some e) else s),
     sa.2).
Proof.
  intros Hs. unfold run_comparisons.
  unfold bind at 1, get_heap. unfold bind at 1, put_self.
  unfold bind at 1. unfold bind at 1. cbn [disk].
  rewrite (run_comparisons_loop_outcome e kw _ _ ∅);
    [|exact Hs|reflexivity].
  cbn [disk self rec_names set_comparisons].
  by destruct (score_all (disk h) (rec_names (self h)) e kw ∅
                 (iter_computed_sorting (disk h))) as [d [[]|err]].
Qed.



Lemma score_all_Ok f names e kw l :
  ∀ d, (score_all f names e kw d l).2 = Ok tt
       ↔ forallb (λ x, is_ok (ground_truth_of f names (Some x.1.1))) l = true.
Proof.
  induction l as [|x l IH]; intros d; simpl; [done|].
  destruct (ground_truth_of f names (Some x.1.1)); simpl; [apply IH | done].
Qed.

Lemma score_all_covers f names e kw l :
  ∀ d k, (score_all f names e kw d l).2 = Ok tt →
         is_Some (d !! k) ∨ k ∈ l.*1 →
         is_Some ((score_all f names e kw d l).1 !! k).
Proof.
  induction l as [|x l IH]; intros d k; simpl.
  - intros _ [?|Hk]; [done | by apply elem_of_nil in Hk].
  - destruct (ground_truth_of f names (Some x.1.1)); [|done].
    intros Hok Hk. apply IH; [done|].
    destruct Hk as [Hk|[->|Hk]%elem_of_cons].
    + left. rewrite lookup_insert. by case_decide.
    + left. rewrite lookup_insert_eq. by eexists.
    + by right.
Qed.


(** ** Counting units *)

Lemma count_frame_columns index e :
  df_columns (count_frame index e) = count_columns e.
Proof. by destruct e. Qed.

Lemma count_frame_index index e : df_index (count_frame index e) = index.
Proof. by destruct e. Qed.

Lemma count_frame_data index e : df_data (count_frame index e) = ∅.
Proof.
  destruct e; [|done]. unfold count_frame, setitem_None, DataFrame_new.
  cbn [df_data]. by rewrite !map_filter_empty.
Qed.

Lemma count_cells_columns wd rd om e gt so comp :
  (count_cells wd rd om e gt so comp).*1 = count_columns e.
Proof. by destruct e. Qed.

Lemma count_columns_NoDup e : NoDup (count_columns e).
Proof. destruct e; by apply (bool_decide_unpack _). Qed.

Lemma write_cells_index df key cells :
  key ∈ df_index df → df_index (write_cells df key cells) = df_index df.
Proof.
  revert df. induction cells as [|cv cells IH]; intros df Hk; [done|].
  simpl. rewrite IH; simpl; by rewrite bool_decide_eq_true_2.
Qed.

Lemma write_cells_columns df key cells :
  cells.*1 ⊆ df_columns df →
  df_columns (write_cells df key cells) = df_columns df.
Proof.
  revert df. induction cells as [|cv cells IH]; intros df Hc; [done|].
  assert (cv.1 ∈ df_columns df) as Hcv by (apply Hc; left).
  simpl. rewrite IH; simpl; rewrite bool_decide_eq_true_2 by done; [done|].
  intros c Hin. apply Hc. by right.
Qed.

Lemma write_cells_data df key cells :
  df_data (write_cells df key cells)
  = foldl (λ m cv, <[(key, cv.1) := cv.2]> m) (df_data df) cells.
Proof.
  revert df. induction cells as [|cv cells IH]; intros df; [done|].
  simpl. by rewrite IH.
Qed.

Lemma cells_lookup_other (m : gmap (string * string * string) Z)
    key key' cells c :
  key ≠ key' →
  foldl (λ m cv, <[(key, cv.1) := cv.2]> m) m cells !! (key', c)
  = m !! (key', c).
Proof.
  intros Hne. revert m.
  induction cells as [|cv cells IH]; intros m; [done|].
  simpl. rewrite IH, lookup_insert_ne; [done | congruence].
Qed.

Lemma cells_lookup_unwritten (m : gmap (string * string * string) Z)
    key cells k c :
  c ∉ cells.*1 →
  foldl (λ m cv, <[(key, cv.1) := cv.2]> m) m cells !! (k, c) = m !! (k, c).
Proof.
  revert m. induction cells as [|cv cells IH]; intros m Hc; [done|].
  simpl in *. apply not_elem_of_cons in Hc as [Hne Hc].
  rewrite IH, lookup_insert_ne; [done | congruence | done].
Qed.

Lemma cells_lookup_written (m : gmap (string * string * string) Z)
    key cells cv :
  NoDup cells.*1 → cv ∈ cells →
  foldl (λ m cv, <[(key, cv.1) := cv.2]> m) m cells !! (key, cv.1)
  = Some cv.2.
Proof.
  revert m. induction cells as [|cv' cells IH]; intros m Hnd Hin.
  { by apply elem_of_nil in Hin. }
  simpl in *. apply NoDup_cons in Hnd as [Hfresh Hnd].
  apply elem_of_cons in Hin as [->|Hin]; [|by apply IH].
  by rewrite cells_lookup_unwritten, lookup_insert_eq.
Qed.


Lemma aggregate_count_units_eq wd rd om h d :
  _is_scanned (self h) = true →
  comparisons (self h) = Some d →
  Forall (aggregable (disk h) (rec_names (self h)) d)
         (iter_computed_sorting (disk h)) →
  aggregate_count_units wd rd om h
  = (h, Ok (foldl (count_step (disk h) (rec_names (self h)) d
                     (truthy (exhaustive_gt (self h))) wd rd om)
              (count_frame (computed_names (self h))
                           (truthy (exhaustive_gt (self h))))
              (iter_computed_sorting (disk h)))).
Proof.
  intros Hs Hd. unfold aggregate_count_units.
  unfold bind at 1, get_heap.
  rewrite bool_decide_eq_false_2 by (by rewrite Hd).
  fold (count_frame (computed_names (self h))
                    (truthy (exhaustive_gt (self h)))).
  generalize (count_frame (computed_names (self h))
                          (truthy (exhaustive_gt (self h)))).
  generalize (iter_computed_sorting (disk h)).
  intros l. induction l as [|[[r sn] so] l IH]; intros acc Hok; [done|].
  apply Forall_cons in Hok as [[Hgt [comp Hcomp]] Hok]. simpl in Hgt, Hcomp.
  cbn [for_fold foldl]. unfold bind at 1. unfold bind at 1.
  rewrite get_ground_truth_eq by done.
  unfold count_step at 2. cbn [fst snd]. rewrite Hcomp.
  destruct (ground_truth_of (disk h) (rec_names (self h)) (Some r))
    as [gt|]; [|done].
  unfold bind at 1. unfold comparisons_getitem at 1, bind at 1, get_heap, ret.
  rewrite Hd, Hcomp. unfold bind at 1.
  destruct (truthy (exhaustive_gt (self h))) eqn:Ee;
    unfold ret; rewrite IH by done; reflexivity.
Qed.

Section CountFold.
Variables (f : Folder) (names : list string)
          (d : gmap (string * string) Comparison) (exh : bool)
          (wd rd om : option Score).

Local Abbreviation step := (count_step f names d exh wd rd om).

Lemma count_step_index df x :
  x.1 ∈ df_index df → df_index (step df x) = df_index df.
Proof.
  intros Hx. unfold count_step.
  destruct (ground_truth_of _ _ _); [|done].
  destruct (d !! x.1); [|done]. by apply write_cells_index.
Qed.

Lemma count_step_columns df x :
  df_columns df = count_columns exh →
  df_columns (step df x) = count_columns exh.
Proof.
  intros Hc. unfold count_step.
  destruct (ground_truth_of _ _ _); [|done].
  destruct (d !! x.1); [|done].
  rewrite write_cells_columns; [done|].
  by rewrite count_cells_columns, Hc.
Qed.


Lemma count_step_other df x k c :
  k ≠ x.1 → df_data (step df x) !! (k, c) = df_data df !! (k, c).
Proof.
  intros H. unfold count_step.
  destruct (ground_truth_of _ _ _); [|done].
  destruct (d !! x.1); [|done].
  rewrite write_cells_data. by apply cells_lookup_other.
Qed.

Lemma count_step_written df x gt comp cv :
  ground_truth_of f names (Some x.1.1) = Ok gt →
  d !! x.1 = Some comp →
  cv ∈ count_cells wd rd om exh gt x.2 comp →
  df_data (step df x) !! (x.1, cv.1) = Some cv.2.
Proof.
  intros Hgt Hcomp Hcv. unfold count_step. rewrite Hgt, Hcomp.
  rewrite write_cells_data. apply cells_lookup_written; [|done].
  rewrite count_cells_columns. apply count_columns_NoDup.
Qed.

Lemma count_fold_index l :
  ∀ df, (∀ x, x ∈ l → x.1 ∈ df_index df) →
        df_index (foldl step df l) = df_index df.
Proof.
  induction l as [|x l IH]; intros df Hl; [done|].
  simpl. rewrite IH.
  - apply count_step_index, Hl. left.
  - intros y Hy. rewrite count_step_index; apply Hl; [by right | left].
Qed.

Lemma count_fold_columns l :
  ∀ df, df_columns df = count_columns exh →
        df_columns (foldl step df l) = count_columns exh.
Proof.
  induction l as [|x l IH]; intros df Hc; [done|].
  simpl. by apply IH, count_step_columns.
Qed.


Lemma count_fold_other l k c :
  k ∉ l.*1 →
  ∀ df, df_data (foldl step df l) !! (k, c) = df_data df !! (k, c).
Proof.
  induction l as [|x l IH]; intros Hk df; [done|].
  simpl in *. apply not_elem_of_cons in Hk as [Hne Hk].
  by rewrite IH, count_step_other.
Qed.


Lemma count_fold_written l x gt comp cv :
  NoDup l.*1 → x ∈ l →
  ground_truth_of f names (Some x.1.1) = Ok gt →
  d !! x.1 = Some comp →
  cv ∈ count_cells wd rd om exh gt x.2 comp →
  ∀ df, df_data (foldl step df l) !! (x.1, cv.1) = Some cv.2.
Proof.
  induction l as [|y l IH]; intros Hnd Hx Hgt Hcomp Hcv df.
  { by apply elem_of_nil in Hx. }
  simpl in Hnd. apply NoDup_cons in Hnd as [Hfresh Hnd].
  apply elem_of_cons in Hx as [->|Hx]; [|by apply IH].
  simpl. rewrite count_fold_other by done.
  by eapply count_step_written.
Qed.
End CountFold.

Lemma ground_truths_load_Forall f names d :
  ground_truths_load f names = true →
  (∀ k, k ∈ iter_computed_names f → is_Some (d !! k)) →
  Forall (aggregable f names d) (iter_computed_sorting f).
Proof.
  unfold ground_truths_load. intros Hok Hd.
  rewrite forallb_forall in Hok. apply Forall_forall. intros x Hx.
  split.
  - apply Hok. by apply list_elem_of_In.
  - apply Hd. unfold iter_computed_names. apply list_elem_of_fmap.
    by exists x.
Qed.

Lemma aggregate_count_units_compared wd rd om h e kw :
  _is_scanned (self h) = true →
  ground_truths_load (disk h) (rec_names (self h)) = true →
  aggregate_count_units wd rd om (compared h e kw)
  = (compared h e kw,
     Ok (foldl (count_step (disk h) (rec_names (self h))
                  (comparison_map (disk h) (rec_names (self h)) e kw)
                  e wd rd om)
           (count_frame (computed_names (self h)) e)
           (iter_computed_sorting (disk h)))).
Proof.
  intros Hs Hok.
  rewrite (aggregate_count_units_eq wd rd om (compared h e kw)
             (comparison_map (disk h) (rec_names (self h)) e kw));
    [done..|].
  apply ground_truths_load_Forall; [done|].
  intros k Hk. unfold comparison_map.
  rewrite score_entry_dom by done. by right.
Qed.








(** A call of [run_comparisons] that returned leaves a map the count table
    can be filled from, as long as the folder stays as it is. *)
Lemma run_comparisons_aggregable e kw h :
  _is_scanned (self h) = true →
  (run_comparisons e kw h).2 = Ok tt →
  _is_scanned (self (run_comparisons e kw h).1) = true
  ∧ disk (run_comparisons e kw h).1 = disk h
  ∧ computed_names (self (run_comparisons e kw h).1) = computed_names (self h)
  ∧ exhaustive_gt (self (run_comparisons e kw h).1) = Some e
  ∧ ∃ d, comparisons (self (run_comparisons e kw h).1) = Some d
         ∧ Forall (aggregable (disk h) (rec_names (self h)) d)
                  (iter_computed_sorting (disk h)).
Proof.
  intros Hs. rewrite run_comparisons_run by done. cbn zeta. cbn [fst snd].
  intros Hok. rewrite Hok. cbn [is_ok with_self self disk set_exhaustive_gt
    set_comparisons _is_scanned computed_names exhaustive_gt comparisons].
  split; [done|]. split; [done|]. split; [done|]. split; [done|].
  eexists. split; [done|].
  apply Forall_forall. intros x Hx. split.
  - apply score_all_Ok in Hok. rewrite forallb_forall in Hok.
    apply Hok. by apply list_elem_of_In.
  - apply score_all_covers; [done|]. right.
    apply list_elem_of_fmap. by exists x.
Qed.


(** ** Row order of the tables *)

Lemma score_fold_other f names e kw l k :
  k ∉ l.*1 → ∀ d, foldl (score_entry f names e kw) d l !! k = d !! k.
Proof.
  induction l as [|x l IH]; intros Hk d; [done|].
  simpl in *. apply not_elem_of_cons in Hk as [Hne Hk].
  rewrite IH by done. unfold score_entry.
  destruct (ground_truth_of f names (Some x.1.1)); [|done].
  by rewrite lookup_insert_ne.
Qed.

Lemma score_fold_written f names e kw l x gt :
  NoDup l.*1 → x ∈ l → ground_truth_of f names (Some x.1.1) = Ok gt →
  ∀ d, foldl (score_entry f names e kw) d l !! x.1
       = Some (compare_sorter_to_ground_truth gt x.2 e kw).
Proof.
  induction l as [|y l IH]; intros Hnd Hx Hgt d.
  { by apply elem_of_nil in Hx. }
  simpl in Hnd. apply NoDup_cons in Hnd as [Hfresh Hnd].
  apply elem_of_cons in Hx as [->|Hx]; [|by apply IH].
  simpl. rewrite score_fold_other by done.
  unfold score_entry. rewrite Hgt. apply lookup_insert_eq.
Qed.

Lemma comparison_map_lookup f names e kw x gt :
  NoDup (iter_computed_names f) → x ∈ iter_computed_sorting f →
  ground_truth_of f names (Some x.1.1) = Ok gt →
  comparison_map f names e kw !! x.1
  = Some (compare_sorter_to_ground_truth gt x.2 e kw).
Proof. intros. by apply score_fold_written. Qed.

Lemma ground_truths_load_elem f names x :
  ground_truths_load f names = true → x ∈ iter_computed_sorting f →
  ∃ gt, ground_truth_of f names (Some x.1.1) = Ok gt.
Proof.
  unfold ground_truths_load. rewrite forallb_forall. intros Hok Hx.
  apply list_elem_of_In, Hok in Hx.
  destruct (ground_truth_of f names (Some x.1.1)); [by eexists | done].
Qed.

(** The rows of the count table are the rows of the outputs, listed in
    the order the folder lists the outputs. *)
Lemma count_rows_compared h e kw wd rd om :
  computed_names (self h) = iter_computed_names (disk h) →
  ground_truths_load (disk h) (rec_names (self h)) = true →
  NoDup (iter_computed_names (disk h)) →
  df_rows (foldl (count_step (disk h) (rec_names (self h))
                    (comparison_map (disk h) (rec_names (self h)) e kw)
                    e wd rd om)
             (count_frame (computed_names (self h)) e)
             (iter_computed_sorting (disk h)))
  = count_row (disk h) (rec_names (self h)) e kw wd rd om
      <$> iter_computed_sorting (disk h).
Proof.
  intros Hsync Hok Hnd. unfold df_rows.
  rewrite count_fold_index, count_fold_columns, count_frame_index, Hsync;
    [|apply count_frame_columns|].
  2: { intros x Hx. rewrite count_frame_index, Hsync.
       unfold iter_computed_names. apply list_elem_of_fmap. by exists x. }
  unfold iter_computed_names. rewrite <- list_fmap_compose.
  apply Forall_fmap_ext, Forall_forall. intros x Hx. cbn [compose].
  unfold count_row.
  destruct (ground_truths_load_elem _ _ x Hok Hx) as [gt Hgt].
  rewrite Hgt. f_equal.
  rewrite <- (count_cells_columns wd rd om e gt x.2
                (compare_sorter_to_ground_truth gt x.2 e kw)).
  rewrite <- !list_fmap_compose.
  apply Forall_fmap_ext, Forall_forall. intros cv Hcv. cbn [compose].
  eapply count_fold_written; try done.
  by apply comparison_map_lookup.
Qed.

Lemma aggregate_performance_loop d h (l : list (string * string * Sorting)) :
  comparisons (self h) = Some d →
  Forall (λ x, is_Some (d !! x.1)) l →
  ∀ acc,
  for_fold l acc
    (λ perf_by_units '(rec_name, sorter_name, sorting),
       let* comp := comparisons_getitem (rec_name, sorter_name) in
       let perf := get_performance comp in
       let perf := (λ '(gt_unit_id, p),
                      (rec_name, sorter_name, gt_unit_id, p)) <$> perf in
       ret (perf_by_units ++ [perf])) h
  = (h, Ok (acc ++ (perf_frame d <$> l))).
Proof.
  intros Hd. induction l as [|[[r sn] so] l IH]; intros Hok acc.
  - simpl. by rewrite app_nil_r.
  - apply Forall_cons in Hok as [[comp Hcomp] Hok]. simpl in Hcomp.
    cbn [for_fold]. unfold bind at 1. unfold bind at 1.
    unfold comparisons_getitem at 1, bind at 1, get_heap, ret.
    rewrite Hd, Hcomp. rewrite IH by done.
    rewrite <- app_assoc. unfold perf_frame at 2. cbn [fst snd fmap list_fmap].
    by rewrite Hcomp.
Qed.

Lemma aggregate_performance_eq d h :
  comparisons (self h) = Some d →
  Forall (λ x, is_Some (d !! x.1)) (iter_computed_sorting (disk h)) →
  aggregate_performance_by_units h
  = (h, if bool_decide (iter_computed_sorting (disk h) = [])
        then Raise (ValueError "No objects to concatenate")
        else Ok (concat (perf_frame d <$> iter_computed_sorting (disk h)))).
Proof.
  intros Hd Hok. unfold aggregate_performance_by_units.
  unfold bind at 1, get_heap.
  rewrite bool_decide_eq_false_2 by (by rewrite Hd).
  unfold bind at 1. rewrite (aggregate_performance_loop d) by done.
  simpl. destruct (iter_computed_sorting (disk h)); done.
Qed.

Lemma perf_frame_compared f names e kw x :
  NoDup (iter_computed_names f) → x ∈ iter_computed_sorting f →
  ground_truths_load f names = true →
  perf_frame (comparison_map f names e kw) x = perf_rows f names e kw x.
Proof.
  intros Hnd Hx Hok. unfold perf_frame, perf_rows.
  destruct (ground_truths_load_elem _ _ x Hok Hx) as [gt Hgt].
  by rewrite (comparison_map_lookup _ _ _ _ _ gt), Hgt.
Qed.

Lemma aggregate_performance_compared h e kw :
  _is_scanned (self h) = true →
  ground_truths_load (disk h) (rec_names (self h)) = true →
  NoDup (iter_computed_names (disk h)) →
  aggregate_performance_by_units (compared h e kw)
  = (compared h e kw,
     if bool_decide (iter_computed_sorting (disk h) = [])
     then Raise (ValueError "No objects to concatenate")
     else Ok (concat (perf_rows (disk h) (rec_names (self h)) e kw
                        <$> iter_computed_sorting (disk h)))).
Proof.
  intros Hs Hok Hnd.
  rewrite (aggregate_performance_eq
             (comparison_map (disk h) (rec_names (self h)) e kw)); [|done|].
  - cbn [compared with_self disk]. f_equal.
    case_bool_decide; [done|]. do 2 f_equal.
    apply Forall_fmap_ext, Forall_forall. intros x Hx.
    by apply perf_frame_compared.
  - apply Forall_forall. intros x Hx. unfold comparison_map.
    rewrite score_entry_dom by done. right.
    apply list_elem_of_fmap. by exists x.
Qed.

Lemma concat_fmap_Permutation {A B} (g : A → list B) (l1 l2 : list A) :
  l1 ≡ₚ l2 → concat (g <$> l1) ≡ₚ concat (g <$> l2).
Proof.
  induction 1 as [|x l1 l2 _ IH|x y l|l1 l2 l3 _ IH1 _ IH2]; simpl.
  - done.
  - by rewrite IH.
  - by rewrite !app_assoc, (comm (++) (g y)).
  - by rewrite IH1.
Qed.

Lemma ground_truth_of_ext f1 f2 names rec_name :
  ground_truth_dir f1 = ground_truth_dir f2 →
  ground_truth_of f1 names rec_name = ground_truth_of f2 names rec_name.
Proof.
  intros H. unfold ground_truth_of, NpzSortingExtractor. by rewrite H.
Qed.

Lemma ground_truths_load_Permutation f1 f2 names :
  ground_truth_dir f1 = ground_truth_dir f2 →
  sortings_dir f1 ≡ₚ sortings_dir f2 →
  ground_truths_load f1 names = true → ground_truths_load f2 names = true.
Proof.
  intros Hgt Hp. unfold ground_truths_load, iter_computed_sorting.
  rewrite !forallb_forall. intros H x Hx.
  rewrite <- (ground_truth_of_ext f1 f2) by done.
  apply H. apply list_elem_of_In. rewrite Hp. by apply list_elem_of_In.
Qed.

(** C6 (amended). The tables are not sorted by key: their rows follow the
    order in which the folder lists the computed outputs.  For two studies
    constructed on folders with the same case names, ground truths and
    computed outputs, listed in possibly different orders, and compared
    with the same arguments, [count_units] holds the row of each output at
    the position of that output in the study's own listing, so the two
    tables hold the same rows up to reordering; [perf_by_units] is the
    concatenation of the frames of the outputs in the order of the study's
    own listing, so it likewise holds the same rows up to reordering (or
    both calls raise on an empty listing); [run_times] is the table
    [collect_run_times] yields, as it yields it. *)
Theorem tables_follow_discovery_order (f1 f2 : Folder)
    (snr1 snr2 : Sorting → Recording → result (list Measure))
    (e : bool) (kw : Kwargs) (wd rd om : option Score) :
  names f1 = names f2 →
  ground_truth_dir f1 = ground_truth_dir f2 →
  sortings_dir f1 ≡ₚ sortings_dir f2 →
  NoDup (iter_computed_names f1) →
  ground_truths_load f1 (names f1) = true →
  ∃ t1 t2,
    (aggregate_count_units wd rd om
       (run_comparisons e kw (__init__ f1 snr1)).1).2 = Ok t1
    ∧ (aggregate_count_units wd rd om
         (run_comparisons e kw (__init__ f2 snr2)).1).2 = Ok t2
    ∧ df_rows t1 = count_row f1 (names f1) e kw wd rd om <$> sortings_dir f1
    ∧ df_rows t2 = count_row f1 (names f1) e kw wd rd om <$> sortings_dir f2
    ∧ df_rows t1 ≡ₚ df_rows t2
    ∧ (aggregate_performance_by_units
         (run_comparisons e kw (__init__ f1 snr1)).1).2
      = perf_table f1 (names f1) e kw (sortings_dir f1)
    ∧ (aggregate_performance_by_units
         (run_comparisons e kw (__init__ f2 snr2)).1).2
      = perf_table f1 (names f1) e kw (sortings_dir f2)
    ∧ same_rows
        (aggregate_performance_by_units
           (run_comparisons e kw (__init__ f1 snr1)).1).2
        (aggregate_performance_by_units
           (run_comparisons e kw (__init__ f2 snr2)).1).2
    ∧ (aggregate_run_times (run_comparisons e kw (__init__ f1 snr1)).1).2
      = Ok (collect_run_times f1)
    ∧ (aggregate_run_times (run_comparisons e kw (__init__ f2 snr2)).1).2
      = Ok (collect_run_times f2).
Proof.
  intros Hnames Hgt Hp Hnd1 Hok1.
  assert (NoDup (iter_computed_names f2)) as Hnd2.
  { unfold iter_computed_names in *. by rewrite <- Hp. }
  assert (ground_truths_load f2 (names f2) = true) as Hok2.
  { rewrite <- Hnames. by eapply ground_truths_load_Permutation. }
  assert (∀ x, count_row f2 (names f2) e kw wd rd om x
               = count_row f1 (names f1) e kw wd rd om x) as Hrow.
  { intros x. unfold count_row.
    by rewrite <- Hnames, (ground_truth_of_ext f1 f2). }
  assert (∀ x, perf_rows f2 (names f2) e kw x
               = perf_rows f1 (names f1) e kw x) as Hperf.
  { intros x. unfold perf_rows.
    by rewrite <- Hnames, (ground_truth_of_ext f1 f2). }
  rewrite !run_comparisons_eq by done. cbn [fst].
  fold (compared (__init__ f1 snr1) e kw) (compared (__init__ f2 snr2) e kw).
  rewrite !aggregate_count_units_compared by done.
  rewrite !aggregate_performance_compared by done.
  cbn [snd]. do 2 eexists. split; [done|]. split; [done|].
  rewrite (count_rows_compared (__init__ f1 snr1)) by done.
  rewrite (count_rows_compared (__init__ f2 snr2)) by done.
  cbn [__init__ scan_folder disk self rec_names fst]. simpl.
  unfold iter_computed_sorting, get_rec_names.
  split; [done|]. split.
  { apply Forall_fmap_ext, Forall_forall. intros x _. apply Hrow. }
  split.
  { rewrite (proj1 (Forall_fmap_ext _ _ (sortings_dir f2))
               (proj2 (Forall_forall _ _) (λ x _, Hrow x))).
    by rewrite Hp. }
  rewrite (proj1 (Forall_fmap_ext _ _ (sortings_dir f2))
               (proj2 (Forall_forall _ _) (λ x _, Hperf x))).
  unfold perf_table.
  split; [done|]. split; [done|]. split; [|done].
  unfold same_rows.
  destruct (sortings_dir f1) as [|x1 l1] eqn:E1.
  - apply Permutation_nil in Hp as ->. done.
  - destruct (sortings_dir f2) as [|x2 l2] eqn:E2.
    { symmetry in Hp. by apply Permutation_nil in Hp. }
    rewrite !bool_decide_eq_false_2 by done.
    by apply concat_fmap_Permutation.
Qed.

(** ** The SNR cache *)

Lemma _compute_snr_eq h r :
  _is_scanned (self h) = true →
  select_rec_name (rec_names (self h)) (Some r) = Ok r →
  _compute_snr r h = (h, snr_table (disk h) (compute_snrs h) r).
Proof.
  intros Hs Hr. unfold _compute_snr, snr_table.
  unfold bind at 1. unfold get_recording, bind at 1.
  rewrite _check_rec_name_eq, after_lazy_scan_scanned,
    known_cases_scanned, Hr by done.
  unfold bind at 1, get_heap, lift.
  destruct (get_one_recording (disk h) r) as [rec|]; [|done].
  unfold bind at 1. rewrite get_ground_truth_eq by done.
  unfold ground_truth_of. rewrite Hr.
  destruct (NpzSortingExtractor (disk h) (r +:+ ".npz")) as [gt|]; [|done].
  unfold bind at 1. unfold bind at 1.
  destruct (compute_snrs h gt rec) as [l|]; [|done].
  by case_bool_decide.
Qed.


(** * Further properties *)

(** ** A study without cases *)

(** With no known case, resolving a case name raises the [ValueError] of
    [list.index], whether a name is passed or not. *)
Theorem check_rec_name_no_case (h : Heap) (rec_name : option string) :
  known_cases h = [] →
  ∃ msg, (_check_rec_name rec_name h).2 = Raise (ValueError msg).
Proof.
  intros Hnone. rewrite _check_rec_name_eq, Hnone. cbn [snd].
  unfold select_rec_name. simpl. eexists. by destruct rec_name.
Qed.

(** ** Fetching an output *)

Lemma get_sorting_loop_eq (sort_name rec_name : string)
    (l : list (string * string * Sorting)) sel h :
  for_fold l sel
    (λ selected_sorting '(r_name, sorter_name, sorting),
       ret (if bool_decide (sort_name = sorter_name)
               && bool_decide (r_name = rec_name)
            then Some sorting else selected_sorting)) h
  = (h, Ok (foldl (pick_sorting sort_name rec_name) sel l)).
Proof.
  revert sel. induction l as [|[[r sn] so] l IH]; intros sel; [done|].
  cbn [for_fold foldl]. unfold bind at 1, ret at 1. by rewrite IH.
Qed.

Lemma pick_sorting_unmatched sort_name rec_name l :
  (rec_name, sort_name) ∉ l.*1 →
  ∀ sel, foldl (pick_sorting sort_name rec_name) sel l = sel.
Proof.
  induction l as [|[[r sn] so] l IH]; intros Hl sel; [done|].
  simpl in *. apply not_elem_of_cons in Hl as [Hne Hl].
  rewrite IH by done. unfold pick_sorting. simpl.
  destruct (bool_decide (sort_name = sn) && bool_decide (r = rec_name)) eqn:E;
    [|done].
  apply andb_true_iff in E as [->%bool_decide_eq_true ->%bool_decide_eq_true].
  done.
Qed.

Lemma pick_sorting_found sort_name rec_name so l :
  NoDup l.*1 → (rec_name, sort_name, so) ∈ l →
  ∀ sel, foldl (pick_sorting sort_name rec_name) sel l = Some so.
Proof.
  induction l as [|x l IH]; intros Hnd Hin sel.
  { by apply elem_of_nil in Hin. }
  simpl in Hnd. apply NoDup_cons in Hnd as [Hfresh Hnd].
  apply elem_of_cons in Hin as [<-|Hin]; [|by apply IH].
  simpl. rewrite pick_sorting_unmatched by done.
  unfold pick_sorting. simpl. by rewrite !bool_decide_eq_true_2.
Qed.

Lemma get_sorting_found_scanned h sort_name rec_name r so :
  _is_scanned (self h) = true →
  sort_name ∈ sorter_names (self h) →
  NoDup (iter_computed_names (disk h)) →
  select_rec_name (rec_names (self h)) rec_name = Ok r →
  (r, sort_name, so) ∈ iter_computed_sorting (disk h) →
  get_sorting sort_name rec_name h = (h, Ok (Some so)).
Proof.
  intros Hs Hin Hnd Hr Hso. unfold get_sorting, bind.
  rewrite _check_rec_name_eq, after_lazy_scan_scanned, known_cases_scanned,
    Hr by done.
  simpl. rewrite bool_decide_eq_true_2 by done.
  rewrite get_sorting_loop_eq. by erewrite pick_sorting_found.
Qed.

(** Every output the scan of a constructed study discovered can be fetched:
    when the folder lists each (case, engine) pair once, [get_sorting] of the
    engine of a listed output, for a name that resolves to its case, returns
    that output and leaves the heap as it was. *)
Theorem get_sorting_found (f : Folder)
    (snr : Sorting → Recording → result (list Measure))
    (sort_name : string) (rec_name : option string) (r : string)
    (so : Sorting) :
  NoDup (iter_computed_names f) →
  select_rec_name (get_rec_names f) rec_name = Ok r →
  (r, sort_name, so) ∈ iter_computed_sorting f →
  get_sorting sort_name rec_name (__init__ f snr)
  = (__init__ f snr, Ok (Some so)).
Proof.
  intros Hnd Hr Hso. apply (get_sorting_found_scanned _ _ _ r); try done.
  cbn. apply np_unique_elem, list_elem_of_fmap.
  exists (r, sort_name). split; [done|].
  unfold iter_computed_names. apply list_elem_of_fmap.
  by exists (r, sort_name, so).
Qed.

(** [run_sorters] does not rescan: whatever the dispatcher did to the
    folder, the object is left as it was, so an engine the study did not know
    before the dispatch is still answered with [None]; once [scan_folder] has
    run on the new folder, an output the folder lists for that engine is
    returned. *)
Theorem run_sorters_needs_rescan (h : Heap) (sorter_list : list string)
    (sorter_params : Params) (mode : Mode) (engine : string)
    (engine_kargs : EngineKargs) (verbose : bool)
    (sort_name : string) (rec_name : option string) (r : string) :
  _is_scanned (self h) = true →
  sort_name ∉ sorter_names (self h) →
  select_rec_name (rec_names (self h)) rec_name = Ok r →
  let h' := (run_sorters sorter_list sorter_params mode engine engine_kargs
               verbose h).1 in
  self h' = self h
  ∧ get_sorting sort_name rec_name h' = (h', Ok None)
  ∧ ∀ r' so,
      NoDup (iter_computed_names (disk h')) →
      select_rec_name (get_rec_names (disk h')) rec_name = Ok r' →
      (r', sort_name, so) ∈ iter_computed_sorting (disk h') →
      get_sorting sort_name rec_name (scan_folder h').1
      = ((scan_folder h').1, Ok (Some so)).
Proof.
  intros Hs Hnew Hr h'.
  assert (self h' = self h) as Hself.
  { unfold h', run_sorters, bind, get_heap, put_disk, lift.
    by destruct (run_study_sorters _ _ _ _ _ _ _). }
  split; [done|]. split.
  - apply (get_sorting_absent_result _ _ _ r); rewrite ?Hself; auto.
  - intros r' so Hnd Hr' Hso.
    apply (get_sorting_found_scanned _ _ _ r'); try done.
    cbn. apply np_unique_elem, list_elem_of_fmap.
    exists (r', sort_name). split; [done|].
    unfold iter_computed_names. apply list_elem_of_fmap.
    by exists (r', sort_name, so).
Qed.

(** [copy_sortings] rescans the folder it has copied the outputs into, and
    keeps the comparison map and its flag as they were: afterwards every
    output that folder lists once can be fetched, while the comparisons are
    those of the folder before. *)
Theorem copy_sortings_rescans (h : Heap) (sort_name : string)
    (rec_name : option string) (r : string) (so : Sorting) :
  NoDup (iter_computed_names (copy_sortings_to_npz (disk h))) →
  select_rec_name (get_rec_names (copy_sortings_to_npz (disk h))) rec_name
    = Ok r →
  (r, sort_name, so) ∈ iter_computed_sorting (copy_sortings_to_npz (disk h)) →
  disk (copy_sortings h).1 = copy_sortings_to_npz (disk h)
  ∧ comparisons (self (copy_sortings h).1) = comparisons (self h)
  ∧ exhaustive_gt (self (copy_sortings h).1) = exhaustive_gt (self h)
  ∧ get_sorting sort_name rec_name (copy_sortings h).1
    = ((copy_sortings h).1, Ok (Some so)).
Proof.
  intros Hnd Hr Hso. split; [done|]. split; [done|]. split; [done|].
  apply (get_sorting_found_scanned _ _ _ r); try done.
  cbn. apply np_unique_elem, list_elem_of_fmap.
  exists (r, sort_name). split; [done|].
  unfold iter_computed_names. apply list_elem_of_fmap.
  by exists (r, sort_name, so).
Qed.

(** ** Order of the engine names *)

(** The engine names a scan leaves are strictly increasing in the byte
    order of the names, so the list is sorted as well as free of
    repetition; this holds for every constructed study. *)
Theorem sorter_names_sorted (h : Heap) (f : Folder)
    (snr : Sorting → Recording → result (list Measure)) :
  increasing (sorter_names (self (scan_folder h).1))
  ∧ increasing (sorter_names (self (__init__ f snr))).
Proof. split; apply np_unique_increasing. Qed.

(** ** One case only *)

(** In a study with exactly one known case, the name passed to a getter is
    not read: [get_ground_truth], [get_recording], [get_sorting] and
    [get_units_snr] do with any name what they do with none. *)
Theorem single_case_name_unread (h : Heap) (c n : string) (sort_name : string) :
  known_cases h = [c] →
  get_ground_truth (Some n) h = get_ground_truth None h
  ∧ get_recording (Some n) h = get_recording None h
  ∧ get_sorting sort_name (Some n) h = get_sorting sort_name None h
  ∧ get_units_snr (Some n) h = get_units_snr None h.
Proof.
  intros Hc.
  assert (_check_rec_name (Some n) h = _check_rec_name None h) as Heq.
  { by rewrite !_check_rec_name_eq, Hc, !select_single. }
  unfold get_ground_truth, get_recording, get_sorting, get_units_snr.
  repeat split; unfold bind at 1; rewrite Heq; reflexivity.
Qed.

(** ** Comparisons that stop half way *)

Lemma run_comparisons_loop_partial e kw (l1 l2 : list (string * string * Sorting))
    (x : string * string * Sorting) err :
  ∀ h d,
  _is_scanned (self h) = true →
  comparisons (self h) = Some d →
  forallb (λ y, is_ok (ground_truth_of (disk h) (rec_names (self h))
                         (Some y.1.1))) l1 = true →
  ground_truth_of (disk h) (rec_names (self h)) (Some x.1.1) = Raise err →
  for_each (l1 ++ x :: l2)
    (λ '(rec_name, sorter_name, sorting),
       let* gt_sorting := get_ground_truth (Some rec_name) in
       let sc := compare_sorter_to_ground_truth gt_sorting sorting e kw in
       comparisons_setitem (rec_name, sorter_name) sc) h
  = (with_self h (set_comparisons (self h)
       (Some (foldl (score_entry (disk h) (rec_names (self h)) e kw) d l1))),
     Raise err).
Proof.
  induction l1 as [|[[r sn] so] l1 IH]; intros h d Hs Hd Hok Hbad.
  - destruct x as [[r sn] so]. simpl in Hbad.
    cbn [app for_each foldl]. unfold bind at 1. unfold bind at 1.
    rewrite get_ground_truth_eq, Hbad by done.
    unfold with_self, set_comparisons. rewrite <- Hd.
    by destruct h as [? [] ?].
  - simpl in Hok. apply andb_true_iff in Hok as [Hx Hok].
    cbn [app for_each]. unfold bind at 1. unfold bind at 1.
    rewrite get_ground_truth_eq by done.
    cbn [foldl]. unfold score_entry at 2. cbn [fst snd].
    destruct (ground_truth_of (disk h) (rec_names (self h)) (Some r))
      as [gt|] eqn:Egt; [|done].
    unfold comparisons_setitem, bind at 1, get_heap. rewrite Hd.
    unfold put_self.
    rewrite (IH _ (<[(r, sn) := compare_sorter_to_ground_truth gt so e kw]> d));
      done.
Qed.

(** When the ground truth of a listed output fails to load, after outputs
    whose ground truths loaded, [run_comparisons] raises that failure; the
    comparison map has by then been replaced by the comparisons of the
    outputs before the failing one, and [self.exhaustive_gt] is left as it
    was before the call. *)
Theorem run_comparisons_stops_at_failure (h : Heap) (e : bool) (kw : Kwargs)
    (l1 l2 : list (string * string * Sorting))
    (x : string * string * Sorting) (err : exn) :
  _is_scanned (self h) = true →
  iter_computed_sorting (disk h) = l1 ++ x :: l2 →
  forallb (λ y, is_ok (ground_truth_of (disk h) (rec_names (self h))
                         (Some y.1.1))) l1 = true →
  ground_truth_of (disk h) (rec_names (self h)) (Some x.1.1) = Raise err →
  (run_comparisons e kw h).2 = Raise err
  ∧ comparisons (self (run_comparisons e kw h).1)
    = Some (foldl (score_entry (disk h) (rec_names (self h)) e kw) ∅ l1)
  ∧ exhaustive_gt (self (run_comparisons e kw h).1) = exhaustive_gt (self h).
Proof.
  intros Hs Hl Hok Hbad.
  assert (run_comparisons e kw h
          = (with_self h (set_comparisons (self h)
               (Some (foldl (score_entry (disk h) (rec_names (self h)) e kw)
                        ∅ l1))), Raise err)) as ->; [|done].
  unfold run_comparisons.
  unfold bind at 1, get_heap. unfold bind at 1, put_self.
  unfold bind at 1. unfold bind at 1. cbn [disk]. rewrite Hl.
  by rewrite (run_comparisons_loop_partial e kw l1 l2 x err _ ∅).
Qed.

Lemma run_comparisons_loop_frame e kw (l : list (string * string * Sorting)) :
  ∀ h d,
  _is_scanned (self h) = true →
  comparisons (self h) = Some d →
  ∃ d' r,
    for_each l
      (λ '(rec_name, sorter_name, sorting),
         let* gt_sorting := get_ground_truth (Some rec_name) in
         let sc := compare_sorter_to_ground_truth gt_sorting sorting e kw in
         comparisons_setitem (rec_name, sorter_name) sc) h
    = (with_self h (set_comparisons (self h) (Some d')), r).
Proof.
  induction l as [|[[r sn] so] l IH]; intros h d Hs Hd.
  - exists d, (Ok tt). simpl. unfold ret, with_self, set_comparisons.
    rewrite <- Hd. by destruct h as [? [] ?].
  - cbn [for_each]. unfold bind at 1. unfold bind at 1.
    rewrite get_ground_truth_eq by done.
    destruct (ground_truth_of (disk h) (rec_names (self h)) (Some r))
      as [gt|err].
    + unfold comparisons_setitem, bind at 1, get_heap. rewrite Hd.
      unfold put_self.
      edestruct (IH {| disk := disk h;
                       self := set_comparisons (self h)
                         (Some (<[(r, sn) := compare_sorter_to_ground_truth
                                              gt so e kw]> d));
                       compute_snrs := compute_snrs h |})
        as (d' & res & Hloop); [done..|].
      exists d', res. exact Hloop.
    + exists d, (Raise err). unfold with_self, set_comparisons.
      rewrite <- Hd. by destruct h as [? [] ?].
Qed.

(** Whether it returns or raises, [run_comparisons] on a constructed study
    never rescans and never writes to the folder: the folder and the three
    scanned lists are as before, and [self.comparisons] is a map afterwards,
    never [None]. *)
Theorem run_comparisons_frame (h : Heap) (e : bool) (kw : Kwargs) :
  _is_scanned (self h) = true →
  disk (run_comparisons e kw h).1 = disk h
  ∧ _is_scanned (self (run_comparisons e kw h).1) = true
  ∧ rec_names (self (run_comparisons e kw h).1) = rec_names (self h)
  ∧ computed_names (self (run_comparisons e kw h).1) = computed_names (self h)
  ∧ sorter_names (self (run_comparisons e kw h).1) = sorter_names (self h)
  ∧ is_Some (comparisons (self (run_comparisons e kw h).1)).
Proof.
  intros Hs.
  assert (∃ c x r, run_comparisons e kw h
                   = (with_self h (set_exhaustive_gt
                        (set_comparisons (self h) (Some c)) x), r))
    as (c & x & r & ->).
  { unfold run_comparisons.
    unfold bind at 1, get_heap. unfold bind at 1, put_self.
    unfold bind at 1. unfold bind at 1. cbn [disk].
    edestruct (run_comparisons_loop_frame e kw (iter_computed_sorting (disk h))
                 (with_self h (set_comparisons (self h) (Some ∅))) ∅)
      as (d' & res & Hloop); [done..|].
    unfold with_self in Hloop. cbn [disk self compute_snrs] in Hloop.
    rewrite Hloop. destruct res as [[]|err].
    - by exists d', (Some e), (Ok tt).
    - exists d', (exhaustive_gt (self h)), (Raise err).
      unfold with_self, set_exhaustive_gt, set_comparisons. simpl.
      done. }
  simpl. repeat split; done.
Qed.

(** ** Aggregating a folder the comparisons do not cover *)

Lemma aggregate_performance_loop_missing d h
    (l1 l2 : list (string * string * Sorting)) (x : string * string * Sorting) :
  comparisons (self h) = Some d →
  Forall (λ y, is_Some (d !! y.1)) l1 →
  d !! x.1 = None →
  ∀ acc,
  for_fold (l1 ++ x :: l2) acc
    (λ perf_by_units '(rec_name, sorter_name, sorting),
       let* comp := comparisons_getitem (rec_name, sorter_name) in
       let perf := get_performance comp in
       let perf := (λ '(gt_unit_id, p),
                      (rec_name, sorter_name, gt_unit_id, p)) <$> perf in
       ret (perf_by_units ++ [perf])) h
  = (h, Raise (KeyError x.1)).
Proof.
  intros Hd Hok Hx. induction l1 as [|[[r sn] so] l1 IH]; intros acc.
  - destruct x as [[r sn] so]. simpl in Hx.
    cbn [app for_fold]. unfold bind at 1. unfold bind at 1.
    unfold comparisons_getitem at 1, bind at 1, get_heap.
    by rewrite Hd, Hx.
  - apply Forall_cons in Hok as [[comp Hcomp] Hok]. simpl in Hcomp.
    cbn [app for_fold]. unfold bind at 1. unfold bind at 1.
    unfold comparisons_getitem at 1, bind at 1, get_heap, ret.
    rewrite Hd, Hcomp. by apply IH.
Qed.

(** When the folder lists an output that has no entry in the comparison
    map (the folder changed after [run_comparisons]), behind outputs that
    have one and whose ground truths load, [aggregate_performance_by_units]
    and [aggregate_count_units] raise the [KeyError] of that pair and leave
    the heap as it was. *)
Theorem aggregation_missing_comparison (h : Heap)
    (d : gmap (string * string) Comparison)
    (l1 l2 : list (string * string * Sorting))
    (x : string * string * Sorting) (wd rd om : option Score) :
  _is_scanned (self h) = true →
  comparisons (self h) = Some d →
  iter_computed_sorting (disk h) = l1 ++ x :: l2 →
  Forall (aggregable (disk h) (rec_names (self h)) d) l1 →
  is_ok (ground_truth_of (disk h) (rec_names (self h)) (Some x.1.1)) = true →
  d !! x.1 = None →
  aggregate_performance_by_units h = (h, Raise (KeyError x.1))
  ∧ aggregate_count_units wd rd om h = (h, Raise (KeyError x.1)).
Proof.
  intros Hs Hd Hl Hok Hgt Hx. split.
  - unfold aggregate_performance_by_units.
    unfold bind at 1, get_heap.
    rewrite bool_decide_eq_false_2 by (by rewrite Hd).
    unfold bind at 1. rewrite Hl.
    rewrite (aggregate_performance_loop_missing d); [done..| |done].
    eapply Forall_impl; [exact Hok|]. by intros y [_ ?].
  - unfold aggregate_count_units.
    unfold bind at 1, get_heap.
    rewrite bool_decide_eq_false_2 by (by rewrite Hd).
    rewrite Hl.
    generalize (if truthy (exhaustive_gt (self h))
                then setitem_None
                       (setitem_None
                          (DataFrame_new (computed_names (self h))
                             ["num_gt"; "num_sorter"; "num_well_detected";
                              "num_redundant"; "num_overmerged"])
                          "num_false_positive") "num_bad"
                else DataFrame_new (computed_names (self h))
                       ["num_gt"; "num_sorter"; "num_well_detected";
                        "num_redundant"; "num_overmerged"]).
    clear Hl. induction l1 as [|[[r sn] so] l1 IH]; intros acc.
    + destruct x as [[r sn] so]. simpl in Hx, Hgt.
      cbn [app for_fold]. unfold bind at 1. unfold bind at 1.
      rewrite get_ground_truth_eq by done.
      destruct (ground_truth_of (disk h) (rec_names (self h)) (Some r));
        [|done].
      unfold bind at 1. unfold comparisons_getitem at 1, bind at 1, get_heap.
      by rewrite Hd, Hx.
    + apply Forall_cons in Hok as [[Hgt1 [comp Hcomp]] Hok].
      simpl in Hgt1, Hcomp.
      cbn [app for_fold]. unfold bind at 1. unfold bind at 1.
      rewrite get_ground_truth_eq by done.
      destruct (ground_truth_of (disk h) (rec_names (self h)) (Some r));
        [|done].
      unfold bind at 1. unfold comparisons_getitem at 1, bind at 1, get_heap,
        ret.
      rewrite Hd, Hcomp. unfold bind at 1.
      destruct (truthy (exhaustive_gt (self h))); unfold ret; by apply IH.
Qed.

(** ** A study without computed outputs *)

(** On a constructed study whose folder lists no computed output,
    [run_comparisons] returns and leaves the empty map;
    [aggregate_count_units] then returns a frame over the scanned pair list
    with no cell filled, while [aggregate_performance_by_units] raises the
    [ValueError] of concatenating no frame, and so does
    [aggregate_dataframes], before writing any file. *)
Theorem aggregation_without_outputs (h : Heap) (e : bool) (kw : Kwargs)
    (copy_into_folder : bool) (wd rd om : option Score) :
  _is_scanned (self h) = true →
  iter_computed_sorting (disk h) = [] →
  (run_comparisons e kw h).2 = Ok tt
  ∧ comparisons (self (run_comparisons e kw h).1) = Some ∅
  ∧ aggregate_performance_by_units (run_comparisons e kw h).1
    = ((run_comparisons e kw h).1,
       Raise (ValueError "No objects to concatenate"))
  ∧ aggregate_dataframes copy_into_folder wd rd om (run_comparisons e kw h).1
    = ((run_comparisons e kw h).1,
       Raise (ValueError "No objects to concatenate"))
  ∧ ∃ t, aggregate_count_units wd rd om (run_comparisons e kw h).1
         = ((run_comparisons e kw h).1, Ok t)
         ∧ df_index t = computed_names (self h)
         ∧ df_data t = ∅.
Proof.
  intros Hs Hl.
  assert (ground_truths_load (disk h) (rec_names (self h)) = true) as Hok.
  { unfold ground_truths_load. by rewrite Hl. }
  rewrite run_comparisons_eq by done. cbn [fst snd].
  fold (compared h e kw).
  assert (comparison_map (disk h) (rec_names (self h)) e kw = ∅) as Hmap.
  { unfold comparison_map. by rewrite Hl. }
  assert (aggregate_performance_by_units (compared h e kw)
          = (compared h e kw, Raise (ValueError "No objects to concatenate")))
    as Hperf.
  { rewrite (aggregate_performance_eq ∅).
    - cbn [compared with_self disk]. by rewrite Hl.
    - cbn. by rewrite Hmap.
    - cbn [compared with_self disk]. by rewrite Hl. }
  split; [done|]. split; [cbn; by rewrite Hmap|]. split; [done|]. split.
  - unfold aggregate_dataframes, bind at 1. simpl.
    unfold bind at 1. by rewrite Hperf.
  - rewrite aggregate_count_units_compared by done. eexists.
    split; [done|]. rewrite Hl. cbn [foldl].
    by rewrite count_frame_index, count_frame_data.
Qed.

(** ** Size of the per-unit table *)

Lemma length_concat_sum {A} (ls : list (list A)) :
  length (concat ls) = sum_list (length <$> ls).
Proof.
  induction ls as [|l ls IH]; [done|].
  simpl. by rewrite length_app, IH.
Qed.

(** When every listed output has a comparison and there is at least one,
    [aggregate_performance_by_units] returns a table with as many rows as
    the per-unit tables of the listed outputs have together, and every row
    is keyed by the (case, engine) pair of a listed output. *)
Theorem perf_by_units_rows (h : Heap) (d : gmap (string * string) Comparison) :
  comparisons (self h) = Some d →
  Forall (λ x, is_Some (d !! x.1)) (iter_computed_sorting (disk h)) →
  iter_computed_sorting (disk h) ≠ [] →
  ∃ rows,
    aggregate_performance_by_units h = (h, Ok rows)
    ∧ length rows
      = sum_list ((λ x, from_option (λ c, length (get_performance c)) 0%nat
                          (d !! x.1))
                    <$> iter_computed_sorting (disk h))
    ∧ ∀ row, row ∈ rows →
             (row.1.1.1, row.1.1.2) ∈ iter_computed_names (disk h).
Proof.
  intros Hd Hok Hne. rewrite (aggregate_performance_eq d) by done.
  rewrite bool_decide_eq_false_2 by done. eexists. split; [done|]. split.
  - rewrite length_concat_sum, <- list_fmap_compose. f_equal.
    apply Forall_fmap_ext, Forall_forall. intros x _. cbn [compose].
    unfold perf_frame. destruct (d !! x.1); [|done]. simpl.
    by rewrite length_fmap.
  - intros row Hrow.
    apply list_elem_of_In, in_concat in Hrow as (frame & Hframe & Hrow).
    apply list_elem_of_In in Hframe, Hrow.
    apply list_elem_of_fmap in Hframe as (x & -> & Hx).
    unfold perf_frame in Hrow. destruct (d !! x.1); [|by apply elem_of_nil in Hrow].
    apply list_elem_of_fmap in Hrow as ([u p] & -> & _). simpl.
    unfold iter_computed_names. apply list_elem_of_fmap. exists x.
    split; [by destruct x as [[??]?] | done].
Qed.

(** ** Exporting the tables *)

(** When the three tables aggregate, [aggregate_dataframes] returns them
    and, asked to persist, leaves in the tables folder (created if it was
    absent) the files [run_times.csv], [perf_by_units.csv] and
    [count_units.csv] holding the written form of the returned tables; a
    file of the same name is overwritten, and every other file of the folder
    is kept. *)
Theorem aggregate_dataframes_exports (h : Heap) (wd rd om : option Score)
    (perfs : list (string * string * Z * Perf)) (counts : DataFrame) :
  _is_scanned (self h) = true →
  (aggregate_performance_by_units h).2 = Ok perfs →
  (aggregate_count_units wd rd om h).2 = Ok counts →
  let tables :=
    <["count_units.csv" := count_to_csv counts]>
      (<["perf_by_units.csv" := perf_to_csv perfs]>
         (<["run_times.csv" := run_times_to_csv (collect_run_times (disk h))]>
            (default ∅ (tables_dir (disk h))))) in
  aggregate_dataframes true wd rd om h
  = (with_disk h (set_tables_dir (disk h) (Some tables)),
     Ok {| df_run_times := collect_run_times (disk h);
           df_perf_by_units := perfs; df_count_units := counts |})
  ∧ tables !! "run_times.csv"
    = Some (run_times_to_csv (collect_run_times (disk h)))
  ∧ tables !! "perf_by_units.csv" = Some (perf_to_csv perfs)
  ∧ tables !! "count_units.csv" = Some (count_to_csv counts)
  ∧ ∀ name,
      name ∉ ["run_times.csv"; "perf_by_units.csv"; "count_units.csv"] →
      tables !! name = tables_dir (disk h) ≫= (.!! name).
Proof.
  intros Hs Hperf Hcount tables. split.
  - unfold aggregate_dataframes.
    unfold bind at 1. simpl.
    unfold bind at 1.
    rewrite (preserves_run _ _ (preserves_aggregate_performance_by_units h)),
      Hperf.
    unfold bind at 1.
    rewrite (preserves_run _ _ (preserves_aggregate_count_units wd rd om h Hs)),
      Hcount.
    unfold write_table, bind, get_heap, put_disk, lift, ret, write_file,
      makedirs_if_missing, with_disk. simpl.
    by destruct (tables_dir (disk h)).
  - unfold tables. split; [|split; [|split]].
    + do 2 (rewrite lookup_insert_ne by done). apply lookup_insert_eq.
    + rewrite lookup_insert_ne by done. apply lookup_insert_eq.
    + apply lookup_insert_eq.
    + intros name Hname.
      apply not_elem_of_cons in Hname as [H1 Hname].
      apply not_elem_of_cons in Hname as [H2 Hname].
      apply not_elem_of_cons in Hname as [H3 _].
      rewrite !lookup_insert_ne by done.
      destruct (tables_dir (disk h)); [done|]. apply lookup_empty.
Qed.

(** ** The SNR cache, further *)

Lemma string_length_app (s t : string) :
  String.length (s +:+ t) = (String.length s + String.length t)%nat.
Proof. induction s as [|a s IH]; simpl; [done | by rewrite IH]. Qed.

Lemma string_app_inj_l (t s1 s2 : string) : s1 +:+ t = s2 +:+ t → s1 = s2.
Proof.
  revert s2. induction s1 as [|a s1 IH]; intros [|b s2] H; [done|..].
  - change (t = String b (s2 +:+ t)) in H.
    apply (f_equal String.length) in H.
    change (String.length t = S (String.length (s2 +:+ t))) in H.
    rewrite (string_length_app s2 t) in H. lia.
  - change (String a (s1 +:+ t) = t) in H.
    apply (f_equal String.length) in H.
    change (S (String.length (s1 +:+ t)) = String.length t) in H.
    rewrite (string_length_app s1 t) in H. lia.
  - change (String a (s1 +:+ t) = String b (s2 +:+ t)) in H.
    injection H as -> H. f_equal. by apply IH.
Qed.

Lemma snr_file_inj (r1 r2 : string) : snr_file r1 = snr_file r2 → r1 = r2.
Proof.
  unfold snr_file. intros H.
  apply (inj (String.append "SNR ")) in H. by apply string_app_inj_l in H.
Qed.

Lemma set_metrics_dir_same (f : Folder) m :
  metrics_dir f = Some m → set_metrics_dir f (Some m) = f.
Proof. destruct f. simpl. by intros ->. Qed.

Lemma with_disk_same (h : Heap) : with_disk h (disk h) = h.
Proof. by destruct h. Qed.

(** [get_units_snr] on a constructed study, case by case. *)
Lemma get_units_snr_eq (h : Heap) (rec_name : option string) :
  _is_scanned (self h) = true →
  get_units_snr rec_name h
  = match select_rec_name (rec_names (self h)) rec_name with
    | Raise err => (h, Raise err)
    | Ok r =>
        let made := set_metrics_dir (disk h)
                      (makedirs_if_missing (metrics_dir (disk h))) in
        match cached h r with
        | Some text => (with_disk h made, snr_read_csv text)
        | None =>
            match snr_table (disk h) (compute_snrs h) r with
            | Raise err => (with_disk h made, Raise err)
            | Ok t =>
                (with_disk h
                   (set_metrics_dir (disk h)
                      (Some (<[snr_file r := snr_to_csv t]>
                               (default ∅ (metrics_dir (disk h)))))),
                 Ok t)
            end
        end
    end.
Proof.
  intros Hs. unfold get_units_snr. unfold bind at 1.
  rewrite _check_rec_name_eq, after_lazy_scan_scanned,
    known_cases_scanned by done.
  destruct (select_rec_name (rec_names (self h)) rec_name) as [r|err] eqn:Hr;
    [|done].
  assert (select_rec_name (rec_names (self h)) (Some r) = Ok r) as Hr'
    by (by eapply select_again).
  unfold bind at 1, get_heap. unfold bind at 1, put_disk.
  unfold bind at 1. cbn [disk self compute_snrs set_metrics_dir metrics_dir].
  fold (snr_file r). unfold cached.
  assert (makedirs_if_missing (metrics_dir (disk h)) ≫= (.!! snr_file r)
          = metrics_dir (disk h) ≫= (.!! snr_file r)) as ->.
  { destruct (metrics_dir (disk h)); simpl; [done|]. apply lookup_empty. }
  destruct (metrics_dir (disk h) ≫= (.!! snr_file r)) as [text|] eqn:Hc;
    [done|].
  unfold bind at 1. rewrite _compute_snr_eq by done.
  cbn [disk self compute_snrs].
  change (snr_table (set_metrics_dir (disk h) _) (compute_snrs h) r)
    with (snr_table (disk h) (compute_snrs h) r).
  destruct (snr_table (disk h) (compute_snrs h) r) as [t|err]; [|done].
  unfold bind at 1, get_heap. unfold bind at 1, lift.
  cbn [disk self compute_snrs set_metrics_dir metrics_dir].
  by destruct (metrics_dir (disk h)).
Qed.

(** A cache file that is already there is authoritative: [get_units_snr]
    answers with what reading it gives (a table or the reader's exception)
    and leaves the heap as it was; the answer is the same on any folder with
    the same metrics files and under any SNR computation, so neither the
    recording, nor the ground truth, nor the computation is consulted. *)
Theorem get_units_snr_reads_cache (h : Heap) (rec_name : option string)
    (r : string) (text : FileText) :
  _is_scanned (self h) = true →
  select_rec_name (rec_names (self h)) rec_name = Ok r →
  cached h r = Some text →
  get_units_snr rec_name h = (h, snr_read_csv text)
  ∧ ∀ f snr,
      metrics_dir f = metrics_dir (disk h) →
      (get_units_snr rec_name
         {| disk := f; self := self h; compute_snrs := snr |}).2
      = snr_read_csv text.
Proof.
  intros Hs Hr Hc. split.
  - rewrite get_units_snr_eq, Hr, Hc by done. cbn zeta.
    unfold cached in Hc.
    destruct (metrics_dir (disk h)) as [m|] eqn:Hm; [|done].
    simpl. by rewrite (set_metrics_dir_same _ _ Hm), with_disk_same.
  - intros f snr Hm. rewrite get_units_snr_eq by done.
    cbn [self]. rewrite Hr. unfold cached in *. cbn [disk].
    by rewrite Hm, Hc.
Qed.

(** When computing the table fails on the first call (no recording, no
    ground truth, a failing or ill-sized computation), [get_units_snr]
    raises that failure; the metrics folder has been created by then, but no
    cache file is written, so the case is still uncached. *)
Theorem get_units_snr_failure_writes_nothing (h : Heap)
    (rec_name : option string) (r : string) (err : exn) :
  _is_scanned (self h) = true →
  select_rec_name (rec_names (self h)) rec_name = Ok r →
  cached h r = None →
  snr_table (disk h) (compute_snrs h) r = Raise err →
  (get_units_snr rec_name h).2 = Raise err
  ∧ metrics_dir (disk (get_units_snr rec_name h).1)
    = Some (default ∅ (metrics_dir (disk h)))
  ∧ cached (get_units_snr rec_name h).1 r = None.
Proof.
  intros Hs Hr Hc Ht. rewrite get_units_snr_eq, Hr, Hc, Ht by done.
  cbn. unfold cached in *. split; [done|].
  destruct (metrics_dir (disk h)); simpl in *; [done|].
  split; [done|]. apply lookup_empty.
Qed.

(** The first call for a case writes the cache file of that case and no
    other: every other file of the metrics folder, and so the cache of every
    other case, is as before. *)
Theorem get_units_snr_writes_one_file (h : Heap) (rec_name : option string)
    (r : string) (t : list (Z * Measure)) :
  _is_scanned (self h) = true →
  select_rec_name (rec_names (self h)) rec_name = Ok r →
  cached h r = None →
  snr_table (disk h) (compute_snrs h) r = Ok t →
  (∀ name, name ≠ snr_file r →
           metrics_dir (disk (get_units_snr rec_name h).1) ≫= (.!! name)
           = metrics_dir (disk h) ≫= (.!! name))
  ∧ (∀ r', r' ≠ r → cached (get_units_snr rec_name h).1 r' = cached h r').
Proof.
  intros Hs Hr Hc Ht.
  assert (∀ name, name ≠ snr_file r →
            metrics_dir (disk (get_units_snr rec_name h).1) ≫= (.!! name)
            = metrics_dir (disk h) ≫= (.!! name)) as Hother.
  { intros name Hname. rewrite get_units_snr_eq, Hr, Hc, Ht by done.
    cbn. rewrite lookup_insert_ne by done.
    destruct (metrics_dir (disk h)); [done|]. simpl. apply lookup_empty. }
  split; [done|].
  intros r' Hr'. apply Hother. intros Heq. by apply snr_file_inj in Heq.
Qed.

(** Whatever it answers, [get_units_snr] on a constructed study leaves the
    object and the bound computation as they were, and changes nothing in
    the study folder outside the metrics folder. *)
Theorem get_units_snr_frame (h : Heap) (rec_name : option string) :
  _is_scanned (self h) = true →
  self (get_units_snr rec_name h).1 = self h
  ∧ compute_snrs (get_units_snr rec_name h).1 = compute_snrs h
  ∧ outside_metrics (disk (get_units_snr rec_name h).1)
    = outside_metrics (disk h).
Proof.
  intros Hs. rewrite get_units_snr_eq by done.
  destruct (select_rec_name (rec_names (self h)) rec_name) as [r|]; [|done].
  cbn zeta. destruct (cached h r); [done|].
  by destruct (snr_table (disk h) (compute_snrs h) r).
Qed.

(** A table [_compute_snr] returns has one row per ground-truth unit of the
    case, in the order of the unit ids, and the heap is left as it was; a
    computation that answers another number of values than there are units
    makes it raise a [ValueError]. *)
Theorem compute_snr_rows (h : Heap) (r : string) :
  _is_scanned (self h) = true →
  select_rec_name (rec_names (self h)) (Some r) = Ok r →
  (_compute_snr r h).1 = h
  ∧ (∀ t, (_compute_snr r h).2 = Ok t →
          ∃ gt, NpzSortingExtractor (disk h) (r +:+ ".npz") = Ok gt
                ∧ t.*1 = get_unit_ids gt)
  ∧ (∀ rec gt snr_list,
       get_one_recording (disk h) r = Ok rec →
       NpzSortingExtractor (disk h) (r +:+ ".npz") = Ok gt →
       compute_snrs h gt rec = Ok snr_list →
       length snr_list ≠ length (get_unit_ids gt) →
       ∃ msg, (_compute_snr r h).2 = Raise (ValueError msg)).
Proof.
  intros Hs Hr. rewrite _compute_snr_eq by done. cbn [fst snd].
  split; [done|]. unfold snr_table. split.
  - intros t.
    destruct (get_one_recording (disk h) r) as [rec|]; [|done].
    destruct (NpzSortingExtractor (disk h) (r +:+ ".npz")) as [gt|]; [|done].
    destruct (compute_snrs h gt rec) as [l|]; [|done].
    case_bool_decide as Hlen; [|done].
    intros [= <-]. exists gt. split; [done|].
    apply fst_zip. lia.
  - intros rec gt l -> -> -> Hlen. rewrite bool_decide_eq_false_2 by done.
    by eexists.
Qed.

(** ** What the count table holds *)


End Study.

(** * The theorems at concrete studies *)

(** The constructed study on [example_folder], with recordings and scoring
    options of type [unit], integer measures and SNR files kept as the table
    they hold. *)
Local Abbreviation study cases outputs :=
  (@__init__ unit unit Z (list (Z * Z))
     (example_folder tt 5 cases outputs) (constant_snr 7)).

Local Abbreviation two_outputs :=
  [("rec0", "s2", three_units); ("rec0", "s1", two_units)].

(** C1, counterexample: in a study with the single case "rec0" the explicit
    name "zzz" matches no known case, and the call returns "rec0" instead of
    failing. *)
Lemma explicit_name_ignored_with_one_case :
  ("zzz" ∉ known_cases (study ["rec0"] []))
  ∧ (_check_rec_name (Some "zzz") (study ["rec0"] [])).2 = Ok "rec0".
Proof. split; [by apply (bool_decide_unpack _) | reflexivity]. Qed.

(** The rule at a study with one case and at a study with two. *)
Lemma check_rec_name_rule_witness :
  (_check_rec_name None (study ["rec0"] [])).2 = Ok "rec0"
  ∧ (∃ e, (_check_rec_name None (study ["rec0"; "rec1"] [])).2 = Raise e
          ∧ usage_error e)
  ∧ (∃ e, (_check_rec_name (Some "zzz") (study ["rec0"; "rec1"] [])).2
          = Raise e ∧ lookup_error e)
  ∧ (_check_rec_name (Some "rec1") (study ["rec0"; "rec1"] [])).2 = Ok "rec1"
  ∧ (_check_rec_name (Some "zzz") (study ["rec0"] [])).2 = Ok "rec0".
Proof.
  destruct (check_rec_name_rule (study ["rec0"] [])) as (H1 & _ & _ & _ & H5).
  destruct (check_rec_name_rule (study ["rec0"; "rec1"] []))
    as (_ & H2 & H3 & H4 & _).
  split; [apply H1; reflexivity|].
  split; [apply H2; simpl; lia|].
  split; [apply H3; [by apply (bool_decide_unpack _) | simpl; lia]|].
  split; [apply H4; [by apply (bool_decide_unpack _) | simpl; lia]|].
  apply H5; reflexivity.
Defined.



(** C3, counterexample: on a freshly constructed study, with no comparison
    run, [aggregate_run_times] returns the run-time table. *)
Lemma aggregate_run_times_before_comparisons :
  comparisons (self (study ["rec0"] two_outputs)) = None
  ∧ (aggregate_run_times (study ["rec0"] two_outputs)).2
    = Ok [("rec0", "s2", 5); ("rec0", "s1", 5)].
Proof. split; reflexivity. Qed.

(** A freshly constructed study: the count table is refused. *)
Lemma aggregation_before_comparisons_witness :
  aggregate_count_units count_tested count_tested count_tested count_tested
    (λ _, 0) (None : option Z) None None (study ["rec0"] two_outputs)
  = (study ["rec0"] two_outputs,
     Raise (AssertionError "run_comparisons first")).
Proof.
  apply (aggregation_before_comparisons count_tested count_tested count_tested
           count_tested (λ _, 0) (constant_perf 1) (λ _, []) (λ _, [])
           (λ _, []) (study ["rec0"] two_outputs) true None None None).
  reflexivity.
Defined.

(** C4: [run_sorters] at a fully computed study.  The dispatcher is the one
    section 4.2 describes, with [d] as the default of its [mode] keyword; the
    engine now produces [three_units] where the folder holds [two_units].
    Asking for "overwrite" and asking for "keep" end in the same heap; with
    the default "keep" the overwrite request reruns nothing, with the default
    "overwrite" the keep request replaces the output. *)
Theorem run_sorters_drops_mode (d : Mode) :
  let h := study ["rec0"] [("rec0", "s1", two_units)] in
  let dispatch := run_study_sorters_spec d (λ _ _, (three_units, 9)) in
  run_sorters dispatch ["s1"] tt overwrite "loop" tt false h
  = run_sorters dispatch ["s1"] tt keep "loop" tt false h
  ∧ match d with
    | keep =>
        iter_computed_sorting
          (disk (run_sorters dispatch ["s1"] tt overwrite "loop" tt false h).1)
        = [("rec0", "s1", two_units)]
    | overwrite =>
        iter_computed_sorting
          (disk (run_sorters dispatch ["s1"] tt keep "loop" tt false h).1)
        = [("rec0", "s1", three_units)]
    end.
Proof. destruct d; split; reflexivity. Qed.



(** C6, counterexample: two studies on folders with equal contents whose
    outputs are listed in opposite orders; the rows of [count_units] come out
    in opposite orders as well. *)
Lemma count_units_rows_in_listing_order :
  let rows h :=
    match (aggregate_count_units count_tested count_tested count_tested
             count_tested (λ _, 0) (None : option Z) None None
             (run_comparisons false tt h).1).2 with
    | Ok t => df_rows t
    | Raise _ => []
    end in
  rows (study ["rec0"] [("rec0", "s2", three_units); ("rec0", "s1", two_units)])
  = [("rec0", "s2", [Some 3; Some 3; Some 3; Some 3; Some 3]);
     ("rec0", "s1", [Some 3; Some 2; Some 2; Some 2; Some 2])]
  ∧ rows (study ["rec0"] [("rec0", "s1", two_units); ("rec0", "s2", three_units)])
    = [("rec0", "s1", [Some 3; Some 2; Some 2; Some 2; Some 2]);
       ("rec0", "s2", [Some 3; Some 3; Some 3; Some 3; Some 3])]
  ∧ rows (study ["rec0"] [("rec0", "s2", three_units); ("rec0", "s1", two_units)])
    ≠ rows (study ["rec0"] [("rec0", "s1", two_units); ("rec0", "s2", three_units)]).
Proof.
  intros rows.
  assert (rows (study ["rec0"]
                  [("rec0", "s2", three_units); ("rec0", "s1", two_units)])
          = [("rec0", "s2", [Some 3; Some 3; Some 3; Some 3; Some 3]);
             ("rec0", "s1", [Some 3; Some 2; Some 2; Some 2; Some 2])]) as H1
    by (vm_compute; reflexivity).
  assert (rows (study ["rec0"]
                  [("rec0", "s1", two_units); ("rec0", "s2", three_units)])
          = [("rec0", "s1", [Some 3; Some 2; Some 2; Some 2; Some 2]);
             ("rec0", "s2", [Some 3; Some 3; Some 3; Some 3; Some 3])]) as H2
    by (vm_compute; reflexivity).
  split; [exact H1|]. split; [exact H2|]. rewrite H1, H2. discriminate.
Qed.

(** The two listings of the counterexample give the same rows, reordered. *)
Lemma tables_follow_discovery_order_witness :
  ∃ t1 t2,
    (aggregate_count_units count_tested count_tested count_tested count_tested
       (λ _, 0) (None : option Z) None None
       (run_comparisons false tt
          (study ["rec0"]
             [("rec0", "s2", three_units); ("rec0", "s1", two_units)])).1).2
    = Ok t1
    ∧ (aggregate_count_units count_tested count_tested count_tested
         count_tested (λ _, 0) (None : option Z) None None
         (run_comparisons false tt
            (study ["rec0"]
               [("rec0", "s1", two_units); ("rec0", "s2", three_units)])).1).2
      = Ok t2
    ∧ df_rows t1 ≡ₚ df_rows t2.
Proof.
  destruct (tables_follow_discovery_order (FileText := list (Z * Z))
              (Kwargs := unit) count_tested count_tested
              count_tested count_tested (λ _, 0) (constant_perf 1)
              (example_folder tt 5 ["rec0"]
                 [("rec0", "s2", three_units); ("rec0", "s1", two_units)])
              (example_folder tt 5 ["rec0"]
                 [("rec0", "s1", two_units); ("rec0", "s2", three_units)])
              (constant_snr 7) (constant_snr 7) false tt
              (None : option Z) None None)
    as (t1 & t2 & H1 & H2 & _ & _ & Hperm & _).
  - reflexivity.
  - reflexivity.
  - apply perm_swap.
  - by apply (bool_decide_unpack _).
  - vm_compute. reflexivity.
  - exists t1, t2. split; [exact H1|]. split; [exact H2|]. exact Hperm.
Defined.



(** A listing without repetition scans to a pair list without repetition. *)
Lemma scan_folder_idempotent_witness :
  NoDup (computed_names (self (scan_folder (study ["rec0"] two_outputs)).1))
  ∧ sorter_names (self (scan_folder (study ["rec0"] two_outputs)).1)
    = ["s1"; "s2"].
Proof.
  destruct (scan_folder_idempotent (study ["rec0"] two_outputs))
    as (_ & _ & _ & _ & _ & _ & Hpairs).
  split; [|reflexivity].
  apply Hpairs. by apply (bool_decide_unpack _).
Defined.

(** C9, counterexample: the engine name "nope" is not among the engine
    names of the study, and [get_sorting] returns [None] without raising. *)
Lemma get_sorting_unknown_engine_returns_None :
  ("nope" ∉ sorter_names (self (study ["rec0"] two_outputs)))
  ∧ (get_sorting "nope" None (study ["rec0"] two_outputs)).2 = Ok None
  ∧ (get_sorting "s1" (Some "rec1")
       (study ["rec0"; "rec1"] two_outputs)).2 = Ok None.
Proof.
  split; [by apply (bool_decide_unpack _)|]. split; reflexivity.
Qed.

(** An engine name the study does not know. *)
Lemma get_sorting_absent_witness :
  get_sorting "nope" None (study ["rec0"] two_outputs)
  = (study ["rec0"] two_outputs, Ok None).
Proof.
  apply (proj1 (get_sorting_absent (study ["rec0"] two_outputs) "nope" None)
           "rec0").
  - reflexivity.
  - reflexivity.
  - left. by apply (bool_decide_unpack _).
Defined.

(** Exporting the tables of a compared study leaves the object as it was. *)
Lemma aggregation_leaves_state_witness :
  self (aggregate_dataframes count_tested count_tested count_tested
          count_tested (λ _, 0) (constant_perf 1) (λ _, []) (λ _, [])
          (λ _, []) true (None : option Z) None None
          (run_comparisons true tt (study ["rec0"] two_outputs)).1).1
  = self (run_comparisons true tt (study ["rec0"] two_outputs)).1.
Proof.
  destruct (aggregation_leaves_state count_tested count_tested count_tested
              count_tested (λ _, 0) (constant_perf 1) (λ _, []) (λ _, [])
              (λ _, []) (run_comparisons true tt
                           (study ["rec0"] two_outputs)).1
              true (None : option Z) None None)
    as (_ & _ & _ & Hself & _).
  - reflexivity.
  - exact Hself.
Defined.

(** * The further properties at concrete studies *)

(** A folder without cases. *)
Lemma check_rec_name_no_case_witness :
  (∃ msg, (_check_rec_name None (study [] [])).2 = Raise (ValueError msg))
  ∧ (∃ msg, (_check_rec_name (Some "rec0") (study [] [])).2
            = Raise (ValueError msg)).
Proof.
  split; apply check_rec_name_no_case; reflexivity.
Defined.

(** The output of engine "s1" in the study with two outputs. *)
Lemma get_sorting_found_witness :
  (get_sorting "s1" None (study ["rec0"] two_outputs)).2 = Ok (Some two_units).
Proof.
  rewrite (get_sorting_found (example_folder tt 5 ["rec0"] two_outputs)
             (constant_snr 7) "s1" None "rec0" two_units).
  - reflexivity.
  - by apply (bool_decide_unpack _).
  - reflexivity.
  - cbn. repeat constructor.
Defined.

(** A study without outputs, a dispatch that produces the output of "s1":
    the output is seen only after a scan. *)
Lemma run_sorters_needs_rescan_witness :
  let h' := (run_sorters (run_study_sorters_spec keep (λ _ _, (three_units, 9)))
               ["s1"] tt keep "loop" tt false (study ["rec0"] [])).1 in
  iter_computed_names (disk h') = [("rec0", "s1")]
  ∧ (get_sorting "s1" None h').2 = Ok None
  ∧ (get_sorting "s1" None (scan_folder h').1).2 = Ok (Some three_units).
Proof.
  intros h'.
  destruct (run_sorters_needs_rescan
              (run_study_sorters_spec keep (λ _ _, (three_units, 9)))
              (study ["rec0"] []) ["s1"] tt keep "loop" tt false
              "s1" None "rec0") as (_ & Hstale & Hfresh).
  - reflexivity.
  - by apply (bool_decide_unpack _).
  - reflexivity.
  - split; [reflexivity|]. split.
    + fold h' in Hstale. by rewrite Hstale.
    + fold h' in Hfresh. rewrite (Hfresh "rec0" three_units).
      * reflexivity.
      * by apply (bool_decide_unpack _).
      * reflexivity.
      * cbn. repeat constructor.
Defined.

(** Copying that brings the output of "s1" into the folder. *)
Lemma copy_sortings_rescans_witness :
  (get_sorting "s1" None
     (copy_sortings (λ f, store_output f ("rec0", "s1") two_units 5)
        (study ["rec0"] [])).1).2 = Ok (Some two_units).
Proof.
  destruct (copy_sortings_rescans
              (λ f, store_output f ("rec0", "s1") two_units 5)
              (study ["rec0"] []) "s1" None "rec0" two_units)
    as (_ & _ & _ & Hget).
  - by apply (bool_decide_unpack _).
  - reflexivity.
  - cbn. repeat constructor.
  - by rewrite Hget.
Defined.

(** A name that is no case of the one-case study. *)
Lemma single_case_name_unread_witness :
  get_ground_truth (Some "zzz") (study ["rec0"] two_outputs)
  = get_ground_truth None (study ["rec0"] two_outputs)
  ∧ get_units_snr id Ok (Some "zzz") (study ["rec0"] two_outputs)
    = get_units_snr id Ok None (study ["rec0"] two_outputs).
Proof.
  destruct (single_case_name_unread id Ok (study ["rec0"] two_outputs)
              "rec0" "zzz" "s1") as (Hgt & _ & _ & Hsnr).
  - reflexivity.
  - split; [exact Hgt | exact Hsnr].
Defined.

(** Two cases, and a second output that names a case the study does not
    know: the first comparison is kept, the flag is not recorded. *)
Lemma run_comparisons_stops_at_failure_witness :
  let h := study ["rec0"; "rec1"]
             [("rec0", "s1", two_units); ("ghost", "s2", three_units)] in
  (run_comparisons true tt h).2 = Raise (ValueError "is not in list")
  ∧ exhaustive_gt (self (run_comparisons true tt h).1) = None
  ∧ is_Some (comparisons (self (run_comparisons true tt h).1)).
Proof.
  intros h.
  destruct (run_comparisons_stops_at_failure h true tt
              [("rec0", "s1", two_units)] [] ("ghost", "s2", three_units)
              (ValueError "is not in list")) as (Hres & Hmap & Hflag).
  - reflexivity.
  - reflexivity.
  - vm_compute. reflexivity.
  - vm_compute. reflexivity.
  - split; [exact Hres|]. split; [exact Hflag|]. rewrite Hmap. by eexists.
Defined.

Lemma run_comparisons_frame_witness :
  let h := study ["rec0"; "rec1"]
             [("rec0", "s1", two_units); ("ghost", "s2", three_units)] in
  disk (run_comparisons true tt h).1 = disk h
  ∧ computed_names (self (run_comparisons true tt h).1)
    = [("rec0", "s1"); ("ghost", "s2")].
Proof.
  intros h.
  destruct (run_comparisons_frame h true tt) as (Hdisk & _ & _ & Hnames & _).
  - reflexivity.
  - split; [exact Hdisk|]. rewrite Hnames. reflexivity.
Defined.

(** Comparisons run on one output, then a second output appears in the
    folder: both aggregations raise the key of the new pair. *)
Lemma aggregation_missing_comparison_witness :
  let h := with_disk
             (run_comparisons true tt
                (study ["rec0"] [("rec0", "s1", two_units)])).1
             (example_folder tt 5 ["rec0"]
                [("rec0", "s1", two_units); ("rec0", "s2", three_units)]) in
  (aggregate_performance_by_units (constant_perf 1) h).2
  = Raise (KeyError ("rec0", "s2"))
  ∧ (aggregate_count_units count_tested count_tested count_tested count_tested
       (λ _, 0) (None : option Z) None None h).2
    = Raise (KeyError ("rec0", "s2")).
Proof.
  intros h.
  destruct (aggregation_missing_comparison count_tested count_tested
              count_tested count_tested (λ _, 0) (constant_perf 1) h
              (comparison_map
                 (example_folder (FileText := list (Z * Z)) tt 5 ["rec0"]
                    [("rec0", "s1", two_units)]) ["rec0"] true tt)
              [("rec0", "s1", two_units)] [] ("rec0", "s2", three_units)
              (None : option Z) None None) as (Hperf & Hcount).
  - reflexivity.
  - reflexivity.
  - reflexivity.
  - constructor; [|constructor].
    split; [vm_compute; reflexivity | vm_compute; by eexists].
  - vm_compute. reflexivity.
  - vm_compute. reflexivity.
  - by rewrite Hperf, Hcount.
Defined.

(** A study with a case and no output. *)
Lemma aggregation_without_outputs_witness :
  let h := (run_comparisons false tt (study ["rec0"] [])).1 in
  (aggregate_performance_by_units (constant_perf 1) h).2
  = Raise (ValueError "No objects to concatenate")
  ∧ ∃ t, (aggregate_count_units count_tested count_tested count_tested
            count_tested (λ _, 0) (None : option Z) None None h).2 = Ok t
         ∧ df_rows t = [].
Proof.
  intros h.
  destruct (aggregation_without_outputs count_tested count_tested count_tested
              count_tested (λ _, 0) (constant_perf 1) (λ _, []) (λ _, [])
              (λ _, []) (study ["rec0"] []) false tt false
              (None : option Z) None None)
    as (_ & _ & Hperf & _ & t & Hcount & Hindex & _).
  - reflexivity.
  - reflexivity.
  - fold h in Hperf, Hcount. split; [by rewrite Hperf|].
    exists t. split; [by rewrite Hcount|].
    unfold df_rows. by rewrite Hindex.
Defined.

(** Two outputs, a per-unit table of three rows each. *)
Lemma perf_by_units_rows_witness :
  ∃ rows,
    (aggregate_performance_by_units (constant_perf 1)
       (run_comparisons true tt (study ["rec0"] two_outputs)).1).2 = Ok rows
    ∧ length rows = 6%nat.
Proof.
  destruct (perf_by_units_rows (constant_perf 1)
              (run_comparisons true tt (study ["rec0"] two_outputs)).1
              (comparison_map
                 (example_folder (FileText := list (Z * Z)) tt 5 ["rec0"]
                    two_outputs) ["rec0"] true tt))
    as (rows & Hrows & Hlen & _).
  - reflexivity.
  - repeat constructor; vm_compute; by eexists.
  - discriminate.
  - exists rows. split; [by rewrite Hrows|]. rewrite Hlen.
    vm_compute. reflexivity.
Defined.

(** Exporting the tables of the study with two outputs; a written table is
    represented by a tag and its number of rows. *)
Lemma aggregate_dataframes_exports_witness :
  let h := (run_comparisons true tt (study ["rec0"] two_outputs)).1 in
  let exported :=
    (aggregate_dataframes count_tested count_tested count_tested count_tested
       (λ _, 0) (constant_perf 1)
       (λ t, [(1, Z.of_nat (length t))]) (λ t, [(2, Z.of_nat (length t))])
       (λ t, [(3, Z.of_nat (length (df_index t)))])
       true (None : option Z) None None h).1 in
  tables_dir (disk exported) ≫= (.!! "run_times.csv") = Some [(1, 2)]
  ∧ tables_dir (disk exported) ≫= (.!! "perf_by_units.csv") = Some [(2, 6)]
  ∧ tables_dir (disk exported) ≫= (.!! "count_units.csv") = Some [(3, 2)].
Proof.
  intros h exported.
  pose (perfs := match (aggregate_performance_by_units (constant_perf 1) h).2
                 with Ok p => p | Raise _ => [] end).
  pose (counts := match (aggregate_count_units count_tested count_tested
                           count_tested count_tested (λ _, 0)
                           (None : option Z) None None h).2
                  with Ok c => c | Raise _ => DataFrame_new [] [] end).
  destruct (aggregate_dataframes_exports count_tested count_tested
              count_tested count_tested (λ _, 0) (constant_perf 1)
              (λ t, [(1, Z.of_nat (length t))])
              (λ t, [(2, Z.of_nat (length t))])
              (λ t, [(3, Z.of_nat (length (df_index t)))])
              h (None : option Z) None None perfs counts)
    as (Heq & Hrt & Hpf & Hct & _).
  - reflexivity.
  - vm_compute. reflexivity.
  - vm_compute. reflexivity.
  - unfold exported. rewrite Heq.
    cbn [fst disk with_disk set_tables_dir tables_dir mbind option_bind].
    rewrite Hrt, Hpf, Hct. repeat split; vm_compute; reflexivity.
Defined.

(** A folder that already holds an SNR file for "rec0": the file is what
    the call answers, not the SNR 7 the computation would give. *)
Lemma get_units_snr_reads_cache_witness :
  (get_units_snr id Ok None
     (@__init__ unit unit Z (list (Z * Z))
        (set_metrics_dir (example_folder tt 5 ["rec0"] [])
           (Some {["SNR rec0.txt" := [(0, 42)]]}))
        (constant_snr 7))).2 = Ok [(0, 42)].
Proof.
  destruct (get_units_snr_reads_cache id Ok
              (@__init__ unit unit Z (list (Z * Z))
                 (set_metrics_dir (example_folder tt 5 ["rec0"] [])
                    (Some {["SNR rec0.txt" := [(0, 42)]]}))
                 (constant_snr 7))
              None "rec0" [(0, 42)]) as (Heq & _).
  - reflexivity.
  - reflexivity.
  - vm_compute. reflexivity.
  - by rewrite Heq.
Defined.

(** A computation that fails. *)
Lemma get_units_snr_failure_writes_nothing_witness :
  let h := @__init__ unit unit Z (list (Z * Z))
             (example_folder tt 5 ["rec0"] [])
             (λ _ _, Raise (ExternalError "no traces")) in
  (get_units_snr id Ok None h).2 = Raise (ExternalError "no traces")
  ∧ metrics_dir (disk (get_units_snr id Ok None h).1) = Some ∅
  ∧ cached (get_units_snr id Ok None h).1 "rec0" = None.
Proof.
  intros h.
  destruct (get_units_snr_failure_writes_nothing id Ok h None "rec0"
              (ExternalError "no traces")) as (Hres & Hdir & Hfile).
  - reflexivity.
  - reflexivity.
  - reflexivity.
  - vm_compute. reflexivity.
  - split; [exact Hres|]. split; [exact Hdir | exact Hfile].
Defined.

(** Two cases: the first call for "rec0" leaves "rec1" uncached. *)
Lemma get_units_snr_writes_one_file_witness :
  cached (get_units_snr id Ok (Some "rec0") (study ["rec0"; "rec1"] [])).1
    "rec1" = None.
Proof.
  destruct (get_units_snr_writes_one_file id Ok (study ["rec0"; "rec1"] [])
              (Some "rec0") "rec0" [(0, 7); (1, 7); (2, 7)])
    as (_ & Hcases).
  - reflexivity.
  - reflexivity.
  - reflexivity.
  - vm_compute. reflexivity.
  - rewrite (Hcases "rec1"); [reflexivity | discriminate].
Defined.

Lemma get_units_snr_frame_witness :
  self (get_units_snr id Ok None (study ["rec0"] two_outputs)).1
  = self (study ["rec0"] two_outputs).
Proof.
  destruct (get_units_snr_frame id Ok (study ["rec0"] two_outputs) None)
    as (Hself & _).
  - reflexivity.
  - exact Hself.
Defined.

(** The table of "rec0": one row per unit id 0, 1, 2. *)
Lemma compute_snr_rows_witness :
  ∃ t, (_compute_snr "rec0" (study ["rec0"] [])).2 = Ok t ∧ t.*1 = [0; 1; 2].
Proof.
  destruct (compute_snr_rows (study ["rec0"] []) "rec0") as (_ & Hrows & _).
  - reflexivity.
  - reflexivity.
  - exists [(0, 7); (1, 7); (2, 7)].
    assert ((_compute_snr "rec0" (study ["rec0"] [])).2
            = Ok [(0, 7); (1, 7); (2, 7)]) as Ht by (vm_compute; reflexivity).
    split; [exact Ht|].
    destruct (Hrows _ Ht) as (gt & Hgt & ->).
    vm_compute in Hgt. by injection Hgt as <-.
Defined.

